(** * Codebase switcher: a shallow embedding of [codebase_switcher2.py]

    The program drives a version-control client through subprocess calls.
    The embedding has four layers:

    - [PyStr]: the few Python string operations the program uses
      ([strip], [rstrip], [lower], [split], [in]);
    - [Fnmatch]: shell-style matching as [fnmatch.fnmatch] performs it on a
      POSIX host, for patterns built from literals, [*] and [?];
    - [Git]: a model of the external client, at the granularity the program
      observes it (exit status and standard output of each command, and their
      effect on branches, index and working tree);
    - [Switcher]: the methods of [CodebaseSwitcher], written in a state
      monad over the [World] the process runs in.

    Scope of the model.  Text is a [string] whose characters stand for code
    points below 256.  Printed messages are recorded without their leading
    emoji.  Writing a file into the directory always succeeds, so the
    handlers for [OSError] around the file writes of [initialize] and around
    the archive as a whole are not reached; a file that cannot be added to
    the archive is an [Entry] that is not readable.  The clock does not
    advance during a run.  [show_status] and [main] only dispatch and
    report; they are not part of the development. *)

From Stdlib Require Import Ascii String NArith ZArith Bool List.
From stdpp Require Import base decidable option list gmap strings fin_maps.

Local Open Scope string_scope.
Local Open Scope list_scope.

(* ===================================================================== *)
(** ** Python string operations *)
(* ===================================================================== *)

Module PyStr.

Definition nl_char : ascii := ascii_of_nat 10.
Definition nl : string := String nl_char EmptyString.

(** [str.isspace] on a single character, restricted to code points below
    256: TAB..CR, FS..US, SPACE, NEL and NBSP. *)
Definition is_space (c : ascii) : bool :=
  let n := N_of_ascii c in
  ((9 <=? n) && (n <=? 13) || (28 <=? n) && (n <=? 32)
   || (n =? 133) || (n =? 160))%N.

Definition is_empty (s : string) : bool :=
  match s with EmptyString => true | String _ _ => false end.

(** [s.lstrip()] *)
Fixpoint lstrip (s : string) : string :=
  match s with
  | EmptyString => EmptyString
  | String c s' => if is_space c then lstrip s' else s
  end.

(** [s.rstrip()]: a character is dropped when it is white space and
    nothing but white space follows it. *)
Fixpoint rstrip (s : string) : string :=
  match s with
  | EmptyString => EmptyString
  | String c s' =>
      let r := rstrip s' in
      if is_space c && is_empty r then EmptyString else String c r
  end.

(** [s.strip()] *)
Definition strip (s : string) : string := rstrip (lstrip s).

(** [str.lower] on one character: A..Z, and the Latin-1 capitals
    U+00C0..U+00DE except the multiplication sign U+00D7. *)
Definition lower_char (c : ascii) : ascii :=
  let n := N_of_ascii c in
  if ((65 <=? n) && (n <=? 90)
      || (192 <=? n) && (n <=? 222) && negb (n =? 215))%N
  then ascii_of_N (n + 32) else c.

(** [s.lower()] *)
Fixpoint lower (s : string) : string :=
  match s with
  | EmptyString => EmptyString
  | String c s' => String (lower_char c) (lower s')
  end.

(** [s.split(sep)] for a one-character separator: never empty, and
    [EmptyString] splits into one empty piece. *)
Fixpoint split_on (sep : ascii) (s : string) : list string :=
  match s with
  | EmptyString => [EmptyString]
  | String c s' =>
      if Ascii.eqb c sep then EmptyString :: split_on sep s'
      else match split_on sep s' with
           | l :: ls => String c l :: ls
           | [] => [String c EmptyString]
           end
  end.

(** [x in xs] for a list of strings *)
Definition elem (x : string) (xs : list string) : bool :=
  existsb (String.eqb x) xs.

Fixpoint starts_with (p s : string) : bool :=
  match p, s with
  | EmptyString, _ => true
  | String a p', String b s' => Ascii.eqb a b && starts_with p' s'
  | String _ _, EmptyString => false
  end.

(** [sub in s] for strings: [sub] occurs as a contiguous piece of [s]. *)
Fixpoint contains (sub s : string) : bool :=
  starts_with sub s ||
  match s with
  | EmptyString => false
  | String _ s' => contains sub s'
  end.

(** [sep.join(xs)] *)
Fixpoint join (sep : string) (xs : list string) : string :=
  match xs with
  | [] => EmptyString
  | [x] => x
  | x :: rest => x +:+ sep +:+ join sep rest
  end.

(** Truth value of [None], of [False] and of a string, as [if x:] and
    [x or y] test it. *)
Definition truthy (o : option string) : bool :=
  match o with
  | Some s => negb (is_empty s)
  | None => false
  end.

(** Some character of [s] is not white space. *)
Fixpoint has_nonspace (s : string) : bool :=
  match s with
  | EmptyString => false
  | String c s' => negb (is_space c) || has_nonspace s'
  end.

(** No character of [s] is white space. *)
Fixpoint no_space (s : string) : bool :=
  match s with
  | EmptyString => true
  | String c s' => negb (is_space c) && no_space s'
  end.

End PyStr.

(* ===================================================================== *)
(** ** fnmatch *)
(* ===================================================================== *)

Module Fnmatch.

(** The pieces [fnmatch.translate] turns a pattern into.  Bracket
    expressions are outside this model: no pattern of the program
    contains an opening bracket (see [zip_exclude_patterns_plain]). *)
Inductive tok : Type :=
| Star                 (* [*]: any run of characters, [/] included *)
| AnyChar              (* [?]: any one character *)
| Lit (c : ascii).     (* the character itself *)

Fixpoint translate (pat : string) : list tok :=
  match pat with
  | EmptyString => []
  | String c pat' =>
      (if Ascii.eqb c "*" then Star
       else if Ascii.eqb c "?" then AnyChar
       else Lit c) :: translate pat'
  end.

(** Anchored match of the whole name, as [re.match] with a trailing
    [\Z] does. *)
Fixpoint matches (p : list tok) (s : string) {struct p} : bool :=
  match p with
  | [] => PyStr.is_empty s
  | Star :: p' =>
      (fix skip (s : string) : bool :=
         matches p' s ||
         match s with
         | EmptyString => false
         | String _ s' => skip s'
         end) s
  | AnyChar :: p' =>
      match s with
      | EmptyString => false
      | String _ s' => matches p' s'
      end
  | Lit c :: p' =>
      match s with
      | EmptyString => false
      | String d s' => Ascii.eqb c d && matches p' s'
      end
  end.

(** [fnmatch.fnmatch(name, pat)]; [os.path.normcase] is the identity on a
    POSIX host. *)
Definition fnmatch (name pat : string) : bool :=
  matches (translate pat) name.

Definition plain (pat : string) : bool :=
  negb (PyStr.contains "[" pat).

End Fnmatch.

(** A relative [Path] is the list of its segments ([Path.parts]);
    [str(path)] joins them with the separator. *)
Definition path_str (parts : list string) : string := PyStr.join "/" parts.

(** [self.zip_exclude_patterns] *)
Definition zip_exclude_patterns : list string :=
  [ "*.env"; "*.zip"; "*.DS_Store"; "*.code"; "__pycache__";
    "dist"; "bin"; ".venv"; "venv"; "node_modules"; "target" ].

(** [should_exclude], with the pattern list as an argument. *)
Definition should_exclude_with (patterns : list string) (rel_path : list string) : bool :=
  existsb (fun pattern =>
             Fnmatch.fnmatch (path_str rel_path) pattern
             || existsb (fun part => Fnmatch.fnmatch part pattern) rel_path)
          patterns.

(** [CodebaseSwitcher.should_exclude] *)
Definition should_exclude (rel_path : list string) : bool :=
  should_exclude_with zip_exclude_patterns rel_path.

(* ===================================================================== *)
(** ** The version-control client *)
(* ===================================================================== *)

(** The client is an external executable.  This module models what the
    program can observe of it: for each command line the program issues, the
    exit status, the standard output, and the effect on the repository and on
    the working tree.  Ignore rules, hooks, remotes, merges and author
    identity are outside the model. *)
Module Git.

(** A snapshot of tracked content: path to file content. *)
Abbreviation Tree := (gmap string string).

#[warnings="-register-all"] Inductive Commit : Type :=
| MkCommit (tree : Tree) (msg : string) (parent : option Commit).

Definition c_tree (c : Commit) : Tree := let 'MkCommit t _ _ := c in t.
Definition c_msg (c : Commit) : string := let 'MkCommit _ m _ := c in m.
Definition c_parent (c : Commit) : option Commit := let 'MkCommit _ _ p := c in p.

(** [HEAD] names a branch (which has no commit yet when the name is not
    in [branches]) or is detached at a commit. *)
Inductive Head : Type :=
| OnBranch (b : string)
| Detached (c : Commit).

Record Repo : Type := MkRepo {
  branches : gmap string Commit;   (* branch name to its tip *)
  head : Head;
  index : Tree;                    (* the staging area *)
  config : gmap string string      (* local configuration *)
}.

(** The command lines the program issues. *)
Inductive Cmd : Type :=
| Init                               (* init *)
| ConfigLocal (key value : string)   (* config --local key value *)
| LogOneline (n : nat)               (* log --oneline -n *)
| AddAll                             (* add . *)
| CommitM (msg : string)             (* commit -m msg *)
| StatusPorcelain                    (* status --porcelain *)
| BranchList (b : string)            (* branch --list b *)
| BranchShowCurrent                  (* branch --show-current *)
| CheckoutNew (b : string)           (* checkout -b b *)
| Checkout (b : string)              (* checkout b *)
| ResetHard                          (* reset --hard *)
| CleanFd                            (* clean -fd *)
| BranchDelete (b : string)          (* branch -D b *)
| DiffQuiet (b1 b2 : string).        (* diff --quiet b1 b2 *)

Definition head_commit (r : Repo) : option Commit :=
  match head r with
  | OnBranch b => branches r !! b
  | Detached c => Some c
  end.

Definition head_tree (r : Repo) : Tree :=
  match head_commit r with
  | Some c => c_tree c
  | None => ∅
  end.

Definition on_branch (r : Repo) (b : string) : bool :=
  match head r with
  | OnBranch b' => String.eqb b' b
  | Detached _ => false
  end.

(** Paths at which two snapshots differ. *)
Definition diffset (a b : Tree) : gset string :=
  filter (fun p => a !! p ≠ b !! p) (dom a ∪ dom b).

(** Paths with an uncommitted change: staged, or unstaged, or untracked. *)
Definition changed (r : Repo) (wt : Tree) : gset string :=
  diffset (index r) (head_tree r) ∪ diffset wt (index r).

(** The two status letters of a path in the short format. *)
Definition letter (old new : option string) : string :=
  match old, new with
  | None, None => " "
  | None, Some _ => "A"
  | Some _, None => "D"
  | Some x, Some y => if String.eqb x y then " " else "M"
  end.

Definition status_line (r : Repo) (wt : Tree) (p : string) : string :=
  (match head_tree r !! p, index r !! p with
   | None, None => "??"
   | h, i => letter h i +:+ letter i (wt !! p)
   end) +:+ " " +:+ p +:+ PyStr.nl.

Definition status_text (r : Repo) (wt : Tree) : string :=
  foldr (fun p acc => status_line r wt p +:+ acc) EmptyString
        (elements (changed r wt)).

(** A commit as [log --oneline] prints it; the abbreviated object name is
    a fixed stand-in. *)
Definition oneline (c : Commit) : string :=
  "0000000 " +:+ c_msg c +:+ PyStr.nl.

Fixpoint log_text (n : nat) (c : option Commit) : string :=
  match n, c with
  | S n', Some c => oneline c +:+ log_text n' (c_parent c)
  | _, _ => EmptyString
  end.

Definition set_index (r : Repo) (i : Tree) : Repo :=
  MkRepo (branches r) (head r) i (config r).
Definition set_head (r : Repo) (h : Head) : Repo :=
  MkRepo (branches r) h (index r) (config r).
Definition set_branches (r : Repo) (bs : gmap string Commit) : Repo :=
  MkRepo bs (head r) (index r) (config r).
Definition set_config (r : Repo) (c : gmap string string) : Repo :=
  MkRepo (branches r) (head r) (index r) c.

(** Record a commit of the index on top of [HEAD]. *)
Definition commit_index (r : Repo) (msg : string) : Repo :=
  let c := MkCommit (index r) msg (head_commit r) in
  match head r with
  | OnBranch b => set_branches r (<[b := c]> (branches r))
  | Detached _ => set_head r (Detached c)
  end.

(** Moving [HEAD] to a snapshot [t] keeps the local changes; it is
    refused when a locally changed path differs between the two
    snapshots. *)
Definition checkout_blocked (r : Repo) (wt t : Tree) : bool :=
  negb (bool_decide (changed r wt ∩ diffset (head_tree r) t = ∅)).

Definition carry (local : gset string) (mine t : Tree) : Tree :=
  filter (fun kv => kv.1 ∈ local) mine ∪ filter (fun kv => kv.1 ∉ local) t.

Record Out : Type := MkOut { code : Z; stdout : string }.

Definition ok : Out := MkOut 0 EmptyString.
Definition fail (n : Z) : Out := MkOut n EmptyString.

(** One run of the client in a directory that holds a repository. *)
Definition exec_in (c : Cmd) (r : Repo) (wt : Tree) : Out * Repo * Tree :=
  match c with
  | Init => (ok, r, wt)
  | ConfigLocal k v => (ok, set_config r (<[k := v]> (config r)), wt)
  | LogOneline n =>
      match head_commit r with
      | Some c => (MkOut 0 (log_text n (Some c)), r, wt)
      | None => (fail 128, r, wt)
      end
  | AddAll => (ok, set_index r wt, wt)
  | CommitM msg =>
      if bool_decide (index r = head_tree r) then (fail 1, r, wt)
      else (ok, commit_index r msg, wt)
  | StatusPorcelain => (MkOut 0 (status_text r wt), r, wt)
  | BranchList b =>
      match branches r !! b with
      | Some _ =>
          (MkOut 0 ((if on_branch r b then "* " else "  ") +:+ b +:+ PyStr.nl), r, wt)
      | None => (ok, r, wt)
      end
  | BranchShowCurrent =>
      match head r with
      | OnBranch b => (MkOut 0 (b +:+ PyStr.nl), r, wt)
      | Detached _ => (ok, r, wt)
      end
  | CheckoutNew b =>
      match branches r !! b with
      | Some _ => (fail 128, r, wt)
      | None =>
          match head_commit r with
          | Some c => (ok, set_head (set_branches r (<[b := c]> (branches r))) (OnBranch b), wt)
          | None => (ok, set_head r (OnBranch b), wt)
          end
      end
  | Checkout b =>
      match branches r !! b with
      | None => (fail 1, r, wt)
      | Some c =>
          if checkout_blocked r wt (c_tree c) then (fail 1, r, wt)
          else
            let local := changed r wt in
            (ok,
             set_head (set_index r (carry local (index r) (c_tree c))) (OnBranch b),
             carry local wt (c_tree c))
      end
  | ResetHard =>
      match head_commit r with
      | None => (fail 128, r, wt)
      | Some c =>
          (ok, set_index r (c_tree c),
           c_tree c ∪ filter (fun kv => kv.1 ∉ dom (index r)) wt)
      end
  | CleanFd => (ok, r, filter (fun kv => kv.1 ∈ dom (index r)) wt)
  | BranchDelete b =>
      match branches r !! b with
      | None => (fail 1, r, wt)
      | Some _ =>
          if on_branch r b then (fail 1, r, wt)
          else (ok, set_branches r (delete b (branches r)), wt)
      end
  | DiffQuiet b1 b2 =>
      match branches r !! b1, branches r !! b2 with
      | Some c1, Some c2 =>
          (fail (if bool_decide (c_tree c1 = c_tree c2) then 0 else 1), r, wt)
      | _, _ => (fail 128, r, wt)
      end
  end.

(** A fresh repository, as [init] leaves it: no commit, [HEAD] on the
    configured initial branch. *)
Definition fresh (initial_branch : string) : Repo :=
  MkRepo ∅ (OnBranch initial_branch) ∅ ∅.

(** One run of the client in a directory: outside a repository every
    command but [init] fails with status 128. *)
Definition exec (initial_branch : string) (c : Cmd) (r : option Repo) (wt : Tree)
  : Out * option Repo * Tree :=
  match r with
  | Some r => let '(o, r', wt') := exec_in c r wt in (o, Some r', wt')
  | None =>
      match c with
      | Init => (ok, Some (fresh initial_branch), wt)
      | _ => (fail 128, None, wt)
      end
  end.

End Git.

(* ===================================================================== *)
(** ** The process and its surroundings *)
(* ===================================================================== *)

Module Switcher.

Import PyStr.

(** [datetime.now()] *)
Record DateTime : Type := MkDateTime {
  year : nat; month : nat; day : nat;
  hour : nat; minute : nat; second : nat
}.

(** What [current_dir.rglob] yields besides the regular files of the
    working tree: directories, files below the metadata directory, files
    that cannot be read. *)
Record Entry : Type := MkEntry {
  e_parts : list string;      (* segments of the path relative to current_dir *)
  e_is_file : bool;           (* file_path.is_file() *)
  e_readable : bool           (* zipf.write does not raise OSError or ValueError *)
}.

(** What the process does to the outside, newest first in [trace]. *)
Inductive Event : Type :=
| EvPrint (text : string)                     (* print(text), without the leading emoji *)
| EvGit (c : Git.Cmd)                         (* subprocess.run(['git', ...]) *)
| EvInput (prompt : string) (reply : option string).   (* input(prompt) *)

Record World : Type := MkWorld {
  git_installed : bool;               (* the executable is on PATH *)
  initial_branch : string;            (* the name init gives the first branch *)
  repo : option Git.Repo;             (* current_dir/.git, when it exists *)
  wt : gmap string string;            (* readable regular files under current_dir, outside .git *)
  others : list Entry;                (* the remaining directory entries *)
  dir_name : string;                  (* current_dir.name *)
  now : DateTime;
  stdin : list string;                (* the lines standard input will deliver *)
  trace : list Event
}.

Definition log (e : Event) (w : World) : World :=
  MkWorld (git_installed w) (initial_branch w) (repo w) (wt w) (others w)
          (dir_name w) (now w) (stdin w) (e :: trace w).

Definition with_repo_wt (w : World) (r : option Git.Repo) (t : gmap string string) : World :=
  MkWorld (git_installed w) (initial_branch w) r t (others w)
          (dir_name w) (now w) (stdin w) (trace w).

Definition with_wt (w : World) (t : gmap string string) : World :=
  with_repo_wt w (repo w) t.

Definition with_stdin (w : World) (l : list string) : World :=
  MkWorld (git_installed w) (initial_branch w) (repo w) (wt w) (others w)
          (dir_name w) (now w) l (trace w).

(** The events in the order they happened. *)
Definition history (w : World) : list Event := rev (trace w).

Definition is_git (e : Event) : bool :=
  match e with EvGit _ => true | _ => false end.

(** The client invocations among the events, in the order given. *)
Definition git_calls (t : list Event) : list Git.Cmd :=
  omap (fun e => match e with EvGit c => Some c | _ => None end) t.

(** *** The state monad of the methods *)

Definition M (A : Type) : Type := World -> A * World.

Definition ret {A} (a : A) : M A := fun w => (a, w).

Definition bind {A B} (m : M A) (k : A -> M B) : M B :=
  fun w => let (a, w') := m w in k a w'.

Declare Scope sw_scope.
Delimit Scope sw_scope with sw.
Notation "x <~ m ;; k" := (bind m (fun x => k))
  (at level 100, m at next level, right associativity) : sw_scope.
Notation "m ;;; k" := (bind m (fun _ => k))
  (at level 100, right associativity) : sw_scope.
Local Open Scope sw_scope.

Definition print (text : string) : M unit :=
  fun w => (tt, log (EvPrint text) w).

(** [input(prompt)]: the next line of standard input, [None] at its end
    (where Python raises EOFError). *)
Definition input (prompt : string) : M (option string) :=
  fun w =>
    match stdin w with
    | line :: rest => (Some line, log (EvInput prompt (Some line)) (with_stdin w rest))
    | [] => (None, log (EvInput prompt None) w)
    end.

(** [(self.current_dir / '.git').exists()] *)
Definition git_dir_exists : M bool :=
  fun w => (match repo w with Some _ => true | None => false end, w).

Definition path_exists (p : string) : M bool :=
  fun w => (match wt w !! p with Some _ => true | None => false end, w).

Definition read_text (p : string) : M string :=
  fun w => (default EmptyString (wt w !! p), w).

Definition write_text (p content : string) : M unit :=
  fun w => (tt, with_wt w (<[p := content]> (wt w))).

Definition get_now : M DateTime := fun w => (now w, w).
Definition get_dir_name : M string := fun w => (dir_name w, w).

(** [subprocess.run(['git'] + args, cwd=self.current_dir)]: [None] when
    the executable is missing (FileNotFoundError). *)
Definition subprocess_run (c : Git.Cmd) : M (option Git.Out) :=
  fun w =>
    let w1 := log (EvGit c) w in
    if git_installed w1 then
      let '(o, r', t') := Git.exec (initial_branch w1) c (repo w1) (wt w1) in
      (Some o, with_repo_wt w1 r' t')
    else (None, w1).

(** *** Formatting *)

Definition digit (n : nat) : ascii := ascii_of_nat (48 + n mod 10).

Definition dec2 (n : nat) : string :=
  String (digit (n / 10)) (String (digit n) EmptyString).

Definition dec4 (n : nat) : string := dec2 (n / 100) +:+ dec2 n.

(** [strftime('%Y-%m-%d %H:%M:%S')] *)
Definition stamp_readme (d : DateTime) : string :=
  dec4 (year d) +:+ "-" +:+ dec2 (month d) +:+ "-" +:+ dec2 (day d) +:+ " "
  +:+ dec2 (hour d) +:+ ":" +:+ dec2 (minute d) +:+ ":" +:+ dec2 (second d).

(** [strftime('%Y%m%d_%H%M%S')] *)
Definition stamp_zip (d : DateTime) : string :=
  dec4 (year d) +:+ dec2 (month d) +:+ dec2 (day d) +:+ "_"
  +:+ dec2 (hour d) +:+ dec2 (minute d) +:+ dec2 (second d).

(** *** Attributes set by [__init__] *)

Definition states : list string := ["preedit"; "gpt"; "sonnet"].
Definition script_files : list string := ["switch.py"].

(** *** [run_git_command] *)

(** [run_git_command(args)] with [capture_output=False]: [check=True]
    turns a non-zero exit status into CalledProcessError. *)
Definition run_git_command (c : Git.Cmd) : M bool :=
  res <~ subprocess_run c ;;
  match res with
  | None => ret false
  | Some o =>
      if (Git.code o =? 0)%Z then ret true
      else
        (if (Git.code o =? 128)%Z
         then print "Git error: Repository operation failed"
         else ret tt) ;;;
        ret false
  end.

(** [run_git_command(args, capture_output=True)] *)
Definition run_git_capture (c : Git.Cmd) : M (option string) :=
  res <~ subprocess_run c ;;
  ret match res with
      | None => None
      | Some o => if (Git.code o =? 0)%Z then Some (strip (Git.stdout o)) else None
      end.

Definition check_git_available : M bool :=
  fun w =>
    if git_installed w then (true, w)
    else (false, log (EvPrint "Git not found in PATH.") w).

Definition get_current_branch : M string :=
  out <~ run_git_capture Git.BranchShowCurrent ;;
  ret (if truthy out then default EmptyString out else "main").

Definition branch_exists (branch : string) : M bool :=
  result <~ run_git_capture (Git.BranchList branch) ;;
  ret (if truthy result then contains branch (default EmptyString result) else false).

(** *** [initialize] *)

Definition switcher_entry : string := "codebase_switcher2.py".

Definition ignore_comment : string :=
  "# Ignore codebase switcher script to avoid contaminating AI conversations".

(** What lines 99-102 write when the entry is missing. *)
Definition cursorignore_append (existing_content : string) : string :=
  (rstrip existing_content +:+ nl +:+ nl +:+ ignore_comment +:+ nl)
  +:+ switcher_entry +:+ nl.

(** What lines 107-111 write when there is no file. *)
Definition cursorignore_fresh : string :=
  ignore_comment +:+ nl +:+ switcher_entry +:+ nl.

(** Lines 91-114, the ignore-list file. *)
Definition update_cursorignore : M unit :=
  present <~ path_exists ".cursorignore" ;;
  if present then
    existing_content <~ read_text ".cursorignore" ;;
    let existing_lines := split_on nl_char (strip existing_content) in
    if negb (elem switcher_entry existing_lines) then
      write_text ".cursorignore" (cursorignore_append existing_content) ;;;
      print ("Updated .cursorignore to exclude switcher script: " +:+ switcher_entry)
    else print ".cursorignore already excludes switcher script"
  else
    write_text ".cursorignore" cursorignore_fresh ;;;
    print "Created .cursorignore to exclude switcher script from AI context".

Definition readme_text (d : DateTime) : string :=
  "# Codebase States" +:+ nl +:+ nl +:+ "Project Date: " +:+ stamp_readme d +:+ nl.

(** Lines 68-77: create the repository when there is none.  The result
    tells whether [initialize] goes on. *)
Definition init_repository : M bool :=
  present <~ git_dir_exists ;;
  if present then ret true
  else
    print "Initializing git repository..." ;;;
    done <~ run_git_command Git.Init ;;
    if negb done then ret false
    else
      print "Setting up local git configuration..." ;;;
      named <~ run_git_command (Git.ConfigLocal "user.name" "Codebase Switcher") ;;
      (if negb named then print "Warning: Could not set local git user.name" else ret tt) ;;;
      mailed <~ run_git_command (Git.ConfigLocal "user.email" "switcher@codebase.local") ;;
      (if negb mailed then print "Warning: Could not set local git user.email" else ret tt) ;;;
      ret true.

(** Lines 79-121: the initial commit, when [log] shows none. *)
Definition init_first_commit : M bool :=
  shown <~ run_git_capture (Git.LogOneline 1) ;;
  if truthy shown then ret true
  else
    print "Creating initial commit..." ;;;
    d <~ get_now ;;
    write_text "README.md" (readme_text d) ;;;
    update_cursorignore ;;;
    staged <~ run_git_command Git.AddAll ;;
    if negb staged then print "Failed to stage files" ;;; ret false
    else
      committed <~ run_git_command (Git.CommitM "Initial commit") ;;
      if negb committed then print "Failed to create initial commit" ;;; ret false
      else ret true.

(** Lines 123-132: commit whatever is pending. *)
Definition init_autocommit : M bool :=
  dirty <~ run_git_capture Git.StatusPorcelain ;;
  if truthy dirty then
    current <~ get_current_branch ;;
    print ("Auto-committing changes on " +:+ current +:+ " before initializing") ;;;
    staged <~ run_git_command Git.AddAll ;;
    if negb staged then print "Failed to stage changes" ;;; ret false
    else
      committed <~ run_git_command
                     (Git.CommitM ("Auto-commit on " +:+ current +:+ " during init")) ;;
      if negb committed then print "Failed to commit changes" ;;; ret false
      else ret true
  else ret true.

(** Lines 134-145: the baseline branch. *)
Definition init_preedit : M bool :=
  present <~ branch_exists "preedit" ;;
  if negb present then
    print "Creating preedit branch" ;;;
    created <~ run_git_command (Git.CheckoutNew "preedit") ;;
    if negb created then print "Failed to create preedit branch" ;;; ret false
    else
      dirty <~ run_git_capture Git.StatusPorcelain ;;
      (if truthy dirty
       then run_git_command (Git.CommitM "Initialize preedit state") ;;; ret tt
       else ret tt) ;;;
      ret true
  else
    switched <~ run_git_command (Git.Checkout "preedit") ;;
    if negb switched then print "Failed to switch to preedit branch" ;;; ret false
    else ret true.

(** Lines 147-156: the loop over the two edit variants. *)
Fixpoint init_variants (variants : list string) : M bool :=
  match variants with
  | [] => ret true
  | state :: rest =>
      present <~ branch_exists state ;;
      if negb present then
        print ("Creating " +:+ state +:+ " branch from preedit") ;;;
        created <~ run_git_command (Git.CheckoutNew state) ;;
        if negb created then print ("Failed to create " +:+ state +:+ " branch") ;;; ret false
        else
          back <~ run_git_command (Git.Checkout "preedit") ;;
          if negb back then print "Failed to return to preedit branch" ;;; ret false
          else init_variants rest
      else init_variants rest
  end.

(** Lines 158-164. *)
Definition init_finish : M bool :=
  switched <~ run_git_command (Git.Checkout "preedit") ;;
  if negb switched then print "Failed to switch to preedit branch" ;;; ret false
  else
    print ("Initialized with states: " +:+ join ", " states) ;;;
    print "Currently on: preedit" ;;;
    ret true.

(** [p] and then [q], unless [p] made the method return False. *)
Definition and_then (p q : M bool) : M bool :=
  go_on <~ p ;; if go_on then q else ret false.

Definition initialize : M bool :=
  and_then check_git_available
    (and_then init_repository
       (and_then init_first_commit
          (and_then init_autocommit
             (and_then init_preedit
                (and_then (init_variants ["gpt"; "sonnet"]) init_finish))))).

(** *** [switch_state] *)

Definition invalid_state_msg : string := "Invalid state. Available: gpt, sonnet".

Definition discard_msg (current : string) : string :=
  "Discarding changes from " +:+ current +:+ " to preserve original state".

Definition switch_commit_msg (current state : string) : string :=
  "Auto-commit from " +:+ current +:+ " before switching to " +:+ state.

Definition switch_commit_note (current state : string) : string :=
  "Auto-committing changes from " +:+ current +:+ " before switching to " +:+ state.

(** Lines 188-208: settle a dirty working tree before leaving [current]. *)
Definition settle_changes (current state : string) : M bool :=
  dirty <~ run_git_capture Git.StatusPorcelain ;;
  if truthy dirty then
    if String.eqb current "preedit" && String.eqb state "gpt" then
      print (discard_msg current) ;;;
      reset <~ run_git_command Git.ResetHard ;;
      if negb reset then print "Failed to discard changes" ;;; ret false
      else run_git_command Git.CleanFd ;;; ret true
    else
      print (switch_commit_note current state) ;;;
      staged <~ run_git_command Git.AddAll ;;
      if negb staged then print "Failed to stage changes" ;;; ret false
      else
        committed <~ run_git_command (Git.CommitM (switch_commit_msg current state)) ;;
        if negb committed then print "Failed to commit changes" ;;; ret false
        else run_git_command Git.CleanFd ;;; ret true
  else ret true.

Definition switch_state (state : string) : M bool :=
  if negb (elem state ["gpt"; "sonnet"]) then
    print invalid_state_msg ;;; ret false
  else
    available <~ check_git_available ;;
    if negb available then ret false
    else
      present <~ git_dir_exists ;;
      if negb present then print "Not a git repo. Run --init first." ;;; ret false
      else
        known <~ branch_exists state ;;
        if negb known then
          print ("State '" +:+ state +:+ "' doesn't exist. Run --init first.") ;;; ret false
        else
          current <~ get_current_branch ;;
          if String.eqb current state then print ("Already on " +:+ state) ;;; ret true
          else
            settled <~ settle_changes current state ;;
            if negb settled then ret false
            else
              print ("Switching to " +:+ state +:+ "...") ;;;
              switched <~ run_git_command (Git.Checkout state) ;;
              if switched then print ("Now on " +:+ state) ;;; ret true
              else print ("Failed to switch to " +:+ state) ;;; ret false.

(** *** [cleanup_switcher_branches] *)

(** [next((b for b in candidates if self.branch_exists(b)), None)] *)
Fixpoint first_existing (candidates : list string) : M (option string) :=
  match candidates with
  | [] => ret None
  | b :: rest =>
      present <~ branch_exists b ;;
      if present then ret (Some b) else first_existing rest
  end.

(** Lines 255-259: the deletion loop. *)
Fixpoint delete_branches (names : list string) : M unit :=
  match names with
  | [] => ret tt
  | state :: rest =>
      present <~ branch_exists state ;;
      (if present then
         print ("Deleting " +:+ state +:+ " branch...") ;;;
         run_git_command (Git.BranchDelete state) ;;; ret tt
       else ret tt) ;;;
      delete_branches rest
  end.

(** Lines 244-253: get off the managed branches. *)
Definition land (current : string) (safe_branch : option string) : M bool :=
  match safe_branch with
  | None =>
      print "Creating main branch..." ;;;
      created <~ run_git_command (Git.CheckoutNew "main") ;;
      if negb created then print "Failed to create main branch" ;;; ret false
      else ret true
  | Some safe =>
      if elem current states then
        print ("Switching to " +:+ safe +:+ "...") ;;;
        switched <~ run_git_command (Git.Checkout safe) ;;
        if negb switched then print ("Failed to switch to " +:+ safe) ;;; ret false
        else ret true
      else ret true
  end.

Definition cleanup_switcher_branches : M bool :=
  print "Cleaning up switcher branches..." ;;;
  current <~ get_current_branch ;;
  safe_branch <~ first_existing ["main"; "master"] ;;
  landed <~ land current safe_branch ;;
  if negb landed then ret false
  else
    delete_branches states ;;;
    print "Cleanup complete - switcher branches removed, files kept" ;;;
    ret true.

(** *** [verify_branches_different] *)

(** Lines 268-271. *)
Fixpoint all_exist (names : list string) : M bool :=
  match names with
  | [] => ret true
  | state :: rest =>
      present <~ branch_exists state ;;
      if negb present then
        print ("Branch '" +:+ state +:+ "' doesn't exist. Run --init first.") ;;; ret false
      else all_exist rest
  end.

Definition branch_pairs : list (string * string) :=
  [("preedit", "gpt"); ("preedit", "sonnet"); ("gpt", "sonnet")].

(** Lines 279-288: [None] when the executable is missing. *)
Fixpoint collect_identical (pairs identical_pairs : list (string * string))
  : M (option (list (string * string))) :=
  match pairs with
  | [] => ret (Some identical_pairs)
  | (branch1, branch2) :: rest =>
      res <~ subprocess_run (Git.DiffQuiet branch1 branch2) ;;
      match res with
      | None => print "Git not found" ;;; ret None
      | Some o =>
          collect_identical rest
            (if (Git.code o =? 0)%Z then identical_pairs ++ [(branch1, branch2)]
             else identical_pairs)
      end
  end.

Fixpoint print_identical (identical_pairs : list (string * string)) : M unit :=
  match identical_pairs with
  | [] => ret tt
  | (branch1, branch2) :: rest =>
      print ("- " +:+ branch1 +:+ " and " +:+ branch2 +:+ " have identical content") ;;;
      print_identical rest
  end.

Definition identical_msg : string := "Some branches are identical:".

Definition verify_branches_different : M bool :=
  print "Verifying branches are different..." ;;;
  present <~ all_exist states ;;
  if negb present then ret false
  else
    found <~ collect_identical branch_pairs [] ;;
    match found with
    | None => ret false
    | Some [] =>
        print "All branches are different - proceeding with zip creation" ;;;
        ret true
    | Some identical_pairs =>
        print identical_msg ;;;
        print_identical identical_pairs ;;;
        ret false
    end.

(** *** [create_zip] *)

(** [Path(p).parts] for a relative POSIX path. *)
Definition path_parts (p : string) : list string :=
  List.filter (fun seg => negb (is_empty seg) && negb (String.eqb seg "."))
              (split_on "/" p).

(** [current_dir.rglob('*')] *)
Definition rglob : M (list Entry) :=
  fun w =>
    (map (fun kv => MkEntry (path_parts kv.1) true true) (map_to_list (wt w))
     ++ others w, w).

(** [file_path.name] *)
Definition name_of (parts : list string) : string := List.last parts EmptyString.

(** Lines 335-354: the members written to the archive, in order. *)
Fixpoint archive_entries (zip_name : string) (entries : list Entry)
  (members : list string) : M (list string) :=
  match entries with
  | [] => ret members
  | e :: rest =>
      if negb (e_is_file e) then archive_entries zip_name rest members
      else if String.eqb (name_of (e_parts e)) zip_name
              || elem (name_of (e_parts e)) script_files
      then archive_entries zip_name rest members
      else if should_exclude (e_parts e) then
        print ("Excluding from zip: " +:+ path_str (e_parts e)) ;;;
        archive_entries zip_name rest members
      else if e_readable e then
        archive_entries zip_name rest (members ++ [path_str (e_parts e)])
      else
        print ("Skipping " +:+ name_of (e_parts e)) ;;;
        archive_entries zip_name rest members
  end.

(** The archive file on disk: its member names stand for its bytes. *)
Definition zip_bytes (members : list string) : string := join nl members.

(** Lines 308-317. *)
Definition zip_autocommit : M bool :=
  dirty <~ run_git_capture Git.StatusPorcelain ;;
  if truthy dirty then
    current <~ get_current_branch ;;
    print ("Auto-committing changes on " +:+ current +:+ " before creating zip") ;;;
    staged <~ run_git_command Git.AddAll ;;
    if negb staged then print "Failed to stage changes" ;;; ret false
    else
      committed <~ run_git_command
                     (Git.CommitM ("Auto-commit on " +:+ current +:+ " before zip creation")) ;;
      if negb committed then print "Failed to commit changes" ;;; ret false
      else ret true
  else ret true.

Definition zip_name_of (dir : string) (d : DateTime) : string :=
  "codebase_" +:+ dir +:+ "_" +:+ stamp_zip d +:+ ".zip".

(** Lines 322-361.  Opening the archive creates the file before the walk
    starts; no step of the block raises in this model, so the handler of
    lines 363-371 is not reached. *)
Definition write_zip : M bool :=
  d <~ get_now ;;
  dir <~ get_dir_name ;;
  let zip_name := zip_name_of dir d in
  print ("Creating " +:+ zip_name +:+ " with git structure...") ;;;
  write_text zip_name EmptyString ;;;
  entries <~ rglob ;;
  members <~ archive_entries zip_name entries [] ;;
  write_text zip_name (zip_bytes members) ;;;
  print ("Created " +:+ zip_name) ;;;
  print "Zip contains: codebase + .git structure" ;;;
  cleanup_switcher_branches ;;;
  ret true.

Definition create_zip : M bool :=
  available <~ check_git_available ;;
  if negb available then ret false
  else
    present <~ git_dir_exists ;;
    if negb present then print "Not a git repo. Run --init first." ;;; ret false
    else
      and_then zip_autocommit (and_then verify_branches_different write_zip).

(** *** [reset_to_initial_state] *)

Inductive Outcome : Type :=
| Returned (b : bool)
| RaisedEOFError.

Definition reset_prompt : string := "Are you sure you want to reset? [y/N]: ".

(** Lines 384-393, after the confirmation. *)
Definition reset_confirmed : M bool :=
  available <~ check_git_available ;;
  if negb available then ret false
  else
    present <~ git_dir_exists ;;
    if negb present then print "Not a git repo. Run --init first." ;;; ret false
    else
      run_git_command Git.CleanFd ;;;
      cleanup_switcher_branches.

Definition reset_to_initial_state : M Outcome :=
  print "WARNING: Running --reset will delete the gpt and sonnet branches and restore the codebase to its initial state (the state when --init was run)." ;;;
  print "Any unsaved work will be lost." ;;;
  print "Use --zip or copy your codebase first if you do not wish to lose unsaved work." ;;;
  reply <~ input reset_prompt ;;
  match reply with
  | None => ret RaisedEOFError
  | Some line =>
      let confirm := lower (strip line) in
      if negb (String.eqb confirm "y") then print "Reset aborted." ;;; ret (Returned false)
      else done <~ reset_confirmed ;; ret (Returned done)
  end.

End Switcher.

(* ===================================================================== *)
(** ** Observations used in the statements *)
(* ===================================================================== *)

Import PyStr Switcher.
Local Open Scope sw_scope.

(** A computation extends the trace: it never rewrites what was recorded. *)
Definition extends {A} (m : M A) : Prop :=
  forall w, exists l, trace (snd (m w)) = l ++ trace w.

Definition reset_warnings : list Event :=
  [ EvPrint "Use --zip or copy your codebase first if you do not wish to lose unsaved work.";
    EvPrint "Any unsaved work will be lost.";
    EvPrint "WARNING: Running --reset will delete the gpt and sonnet branches and restore the codebase to its initial state (the state when --init was run)." ].

(** The answer counts as the affirmative when it is [y] once stripped and
    lowered. *)
Definition affirmative (line : string) : bool :=
  String.eqb (lower (strip line)) "y".

(** The branch names the program itself asks the client about. *)
Definition known_name (b : string) : Prop :=
  b = "preedit" \/ b = "gpt" \/ b = "sonnet" \/ b = "main" \/ b = "master".

Definition has_branch (r : Git.Repo) (b : string) : bool :=
  match Git.branches r !! b with Some _ => true | None => false end.

(** What [get_current_branch] answers in a repository. *)
Definition current_name (r : Git.Repo) : string :=
  match Git.head r with
  | Git.OnBranch b => if is_empty (strip (b +:+ nl)) then "main" else strip (b +:+ nl)
  | Git.Detached _ => "main"
  end.

(** Nothing is staged and the working tree is the snapshot of [HEAD]. *)
Definition clean (r : Git.Repo) (t : gmap string string) : Prop :=
  Git.index r = Git.head_tree r /\ t = Git.index r.




(** The member names of the archive [zip_name] in the directory [t]. *)
Definition archive_members (t : gmap string string) (zip_name : string) : list string :=
  match t !! zip_name with
  | Some bytes => split_on nl_char bytes
  | None => []
  end.

(** Which entries of the walk end up in the archive. *)
Definition archived (zip_name : string) (e : Entry) : bool :=
  e_is_file e
  && negb (String.eqb (name_of (e_parts e)) zip_name)
  && negb (elem (name_of (e_parts e)) script_files)
  && negb (should_exclude (e_parts e))
  && e_readable e.

(** What the comparison of line 282 finds for a pair of branch names: both
    exist and their snapshots are equal. *)
Definition identical_in (r : Git.Repo) (pair : string * string) : bool :=
  match Git.branches r !! pair.1, Git.branches r !! pair.2 with
  | Some c1, Some c2 => bool_decide (Git.c_tree c1 = Git.c_tree c2)
  | _, _ => false
  end.

(** [w'] is [w] with more events recorded, and nothing else changed. *)
Definition only_logs (w w' : World) : Prop :=
  exists l,
    w' = MkWorld (git_installed w) (initial_branch w) (repo w) (wt w) (others w)
                 (dir_name w) (now w) (stdin w) (l ++ trace w).

Definition is_nil {A} (l : list A) : bool :=
  match l with [] => true | _ => false end.

(** The trunk branch the cleanup lands on, if one exists. *)
Definition trunk_of (r : Git.Repo) : option string :=
  if has_branch r "main" then Some "main"
  else if has_branch r "master" then Some "master"
  else None.

(** The commands that write into the working tree. *)
Definition touches_files (c : Git.Cmd) : bool :=
  match c with
  | Git.Checkout _ | Git.ResetHard | Git.CleanFd => true
  | _ => false
  end.

(** A conventional trunk name. *)
Definition on_trunk (h : Git.Head) : Prop :=
  h = Git.OnBranch "main" \/ h = Git.OnBranch "master".

(** Where the cleanup leaves [HEAD], told from where it started. *)
Definition lands_on_trunk (r : Git.Repo) : bool :=
  elem (current_name r) states
  || match trunk_of r with Some _ => false | None => true end.






(* ===================================================================== *)
(** ** Concrete worlds *)
(* ===================================================================== *)

Module Scenario.

Import Git.

Definition at_0805 : DateTime := MkDateTime 2024 3 9 8 5 7.

Definition zip_0805 : string := "codebase_proj_20240309_080507.zip".

Definition tree_v0 : gmap string string := {[ "app.py" := "v0" ]}.
Definition tree_v1 : gmap string string := {[ "app.py" := "v1" ]}.
Definition tree_v2 : gmap string string := {[ "app.py" := "v2" ]}.
Definition tree_v3 : gmap string string := {[ "app.py" := "v3" ]}.

Definition c_base : Commit := MkCommit tree_v0 "Initial commit" None.
Definition c_gpt : Commit := MkCommit tree_v1 "gpt edit" (Some c_base).
Definition c_sonnet : Commit := MkCommit tree_v2 "sonnet edit" (Some c_base).
Definition c_feature : Commit := MkCommit tree_v3 "feature work" (Some c_base).

Definition world (installed : bool) (r : option Repo) (t : gmap string string)
  (input_lines : list string) : World :=
  MkWorld installed "master" r t [] "proj" at_0805 input_lines [].

(** A directory with one file and no repository. *)
Definition w_fresh : World := world true None tree_v0 [].

(** The same directory on a host without the client. *)
Definition w_no_client : World := world false None tree_v0 [].

(** Three managed branches with pairwise different content. *)
Definition distinct_branches : gmap string Commit :=
  {[ "master" := c_base; "preedit" := c_base; "gpt" := c_gpt; "sonnet" := c_sonnet ]}.

(** On [gpt], with an uncommitted edit of [app.py]. *)
Definition r_on_gpt : Repo := MkRepo distinct_branches (OnBranch "gpt") tree_v1 ∅.
Definition w_dirty_gpt : World :=
  world true (Some r_on_gpt) {[ "app.py" := "v1 edited" ]} [].


(** On [sonnet], nothing pending. *)
Definition r_on_sonnet : Repo := MkRepo distinct_branches (OnBranch "sonnet") tree_v2 ∅.
Definition w_clean_sonnet (input_lines : list string) : World :=
  world true (Some r_on_sonnet) tree_v2 input_lines.



(** The user has checked out a branch of their own; [main] exists. *)
Definition r_feature : Repo :=
  MkRepo {[ "main" := c_base; "feature" := c_feature;
            "preedit" := c_base; "gpt" := c_gpt; "sonnet" := c_sonnet ]}
         (OnBranch "feature") tree_v3 ∅.
Definition w_feature : World := world true (Some r_feature) tree_v3 [].




(** On [sonnet]; the switcher script, a file named [switch.py] and an old
    archive lie untracked in the directory. *)
Definition w_with_script : World :=
  world true (Some r_on_sonnet)
        {[ "app.py" := "v2"; "codebase_switcher2.py" := "import argparse";
           "switch.py" := "pass"; "build/output.zip" := "PK" ]} [].

End Scenario.

(* ===================================================================== *)
(** ** Further observations *)
(* ===================================================================== *)


(** The extensions the pattern list excludes wherever they occur. *)
Definition excluded_extensions : list string := [".env"; ".zip"; ".DS_Store"; ".code"].

(** [m] gives up in [w]: it returns False and has done nothing but print
    one message. *)
Definition refuses (m : M bool) (w : World) : Prop :=
  fst (m w) = false /\ exists text, snd (m w) = log (EvPrint text) w.

(** [HEAD] names no branch the client could report: no client, no
    repository, or a detached [HEAD]. *)
Definition no_branch_reported (w : World) : Prop :=
  git_installed w = false \/ repo w = None
  \/ exists r c, repo w = Some r /\ Git.head r = Git.Detached c.


(** The branch map once the three managed branches are removed. *)
Definition without_managed (bs : gmap string Git.Commit) : gmap string Git.Commit :=
  delete "sonnet" (delete "gpt" (delete "preedit" bs)).

Module Scenario2.

Import Git Scenario.

(** [HEAD] detached at the tip of [gpt]. *)
Definition r_detached : Repo := MkRepo distinct_branches (Detached c_gpt) tree_v1 ∅.
Definition w_detached : World := world true (Some r_detached) tree_v1 [].

(** On [gpt], nothing pending. *)
Definition w_clean_gpt : World := world true (Some r_on_gpt) tree_v1 [].

(** A repository in which [sonnet] has not been created. *)
Definition r_no_sonnet : Repo :=
  MkRepo {[ "master" := c_base; "preedit" := c_base; "gpt" := c_gpt ]}
         (OnBranch "gpt") tree_v1 ∅.
Definition w_no_sonnet : World := world true (Some r_no_sonnet) tree_v1 [].


(** The first branch of the repository is [develop]: there is no trunk. *)
Definition r_no_trunk : Repo :=
  MkRepo {[ "develop" := c_base; "preedit" := c_base; "gpt" := c_gpt; "sonnet" := c_sonnet ]}
         (OnBranch "gpt") tree_v1 ∅.
Definition w_no_trunk : World := world true (Some r_no_trunk) tree_v1 [].

End Scenario2.

(* ===================================================================== *)
(** * Properties *)
(* ===================================================================== *)

(** ** Sanity checks of the string layer *)

Example strip_ex : strip ("  * gpt " +:+ nl) = "* gpt".
Proof. reflexivity. Qed.

Example rstrip_ex : rstrip ("node_modules" +:+ nl +:+ nl) = "node_modules".
Proof. reflexivity. Qed.

Example split_ex : split_on nl_char ("a" +:+ nl +:+ nl +:+ "b" +:+ nl) = ["a"; ""; "b"; ""].
Proof. reflexivity. Qed.

Example contains_ex : contains "gpt" "* gpt" = true /\ contains "gpt" "" = false.
Proof. split; reflexivity. Qed.

Example fnmatch_ex :
  Fnmatch.fnmatch ".env" "*.env" = true
  /\ Fnmatch.fnmatch "test.env" "*.env" = true
  /\ Fnmatch.fnmatch "env" "*.env" = false
  /\ Fnmatch.fnmatch "targets" "target" = false
  /\ Fnmatch.fnmatch "a/b.zip" "*.zip" = true.
Proof. repeat split; reflexivity. Qed.

Example should_exclude_ex :
  should_exclude ["src"; "main.py"] = false
  /\ should_exclude ["a"; "node_modules"; "x.js"] = true
  /\ should_exclude [".env"] = true
  /\ should_exclude ["targets"; "a.txt"] = false.
Proof. repeat split; reflexivity. Qed.

Example stamp_ex :
  zip_name_of "proj" Scenario.at_0805 = Scenario.zip_0805
  /\ stamp_readme Scenario.at_0805 = "2024-03-09 08:05:07".
Proof. split; reflexivity. Qed.

(** ** Exclusion patterns *)

Lemma zip_exclude_patterns_plain :
  forallb Fnmatch.plain zip_exclude_patterns = true.
Proof. reflexivity. Qed.

Lemma fnmatch_refl_target : Fnmatch.fnmatch "target" "target" = true.
Proof. reflexivity. Qed.

(** A pattern that matches one segment excludes the whole path. *)
Lemma should_exclude_with_segment (patterns parts : list string) (pattern part : string) :
  In pattern patterns -> In part parts ->
  Fnmatch.fnmatch part pattern = true ->
  should_exclude_with patterns parts = true.
Proof.
  intros Hpat Hpart Hm. unfold should_exclude_with.
  apply existsb_exists. exists pattern. split; [exact Hpat|].
  apply orb_true_iff. right.
  apply existsb_exists. exists part. split; assumption.
Qed.

(** A star swallows any prefix of the name. *)
Lemma matches_star_prefix (p : list Fnmatch.tok) (pre s : string) :
  Fnmatch.matches p s = true ->
  Fnmatch.matches (Fnmatch.Star :: p) (pre +:+ s) = true.
Proof.
  intros Hs. induction pre as [|c pre IH]; simpl.
  - destruct s; simpl in *; rewrite Hs; reflexivity.
  - simpl in IH. rewrite IH. apply orb_true_r.
Qed.

(** Every name that ends in [.zip] matches [*.zip], whatever precedes the
    extension, separators included. *)
Lemma fnmatch_zip_suffix (pre : string) :
  Fnmatch.fnmatch (pre +:+ ".zip") "*.zip" = true.
Proof.
  unfold Fnmatch.fnmatch.
  change (Fnmatch.translate "*.zip")
    with (Fnmatch.Star :: Fnmatch.translate ".zip").
  apply matches_star_prefix. reflexivity.
Qed.

(** C8: under [*.zip], which holds no separator, the path
    [build/output.zip] is excluded, already by the match on the full
    relative path; and every path with a segment named [target] is excluded
    under the bare pattern [target], wherever the segment stands; both also
    under the program's own pattern list. *)
Theorem exclusion_zip_and_target (parts : list string) (Htarget : In "target" parts) :
  contains "/" "*.zip" = false
  /\ Fnmatch.fnmatch (path_str ["build"; "output.zip"]) "*.zip" = true
  /\ should_exclude_with ["*.zip"] ["build"; "output.zip"] = true
  /\ should_exclude ["build"; "output.zip"] = true
  /\ should_exclude_with ["target"] parts = true
  /\ should_exclude parts = true.
Proof.
  repeat split; try reflexivity.
  - apply (should_exclude_with_segment _ _ "target" "target");
      [left; reflexivity | exact Htarget | exact fnmatch_refl_target].
  - apply (should_exclude_with_segment _ _ "target" "target");
      [unfold zip_exclude_patterns; simpl; tauto | exact Htarget
      | exact fnmatch_refl_target].
Qed.

Lemma exclusion_zip_and_target_witness :
  In "target" ["services"; "api"; "target"; "debug"; "app.bin"]
  /\ should_exclude ["services"; "api"; "target"; "debug"; "app.bin"] = true.
Proof.
  split.
  - simpl; tauto.
  - apply (exclusion_zip_and_target ["services"; "api"; "target"; "debug"; "app.bin"]).
    simpl; tauto.
Defined.

(** ** Rejection of an unknown variant *)

Lemma switch_state_invalid (state : string) (w : World) :
  state <> "gpt" -> state <> "sonnet" ->
  switch_state state w = (false, log (EvPrint invalid_state_msg) w).
Proof.
  intros Hg Hs. unfold switch_state, elem. simpl.
  apply String.eqb_neq in Hg. apply String.eqb_neq in Hs.
  rewrite Hg, Hs. reflexivity.
Qed.

(** C4: a name other than [gpt] and [sonnet] makes [switch_state] return
    False after the invalid-state message, and repository (branches, current
    branch, index), working tree and remaining input are what they were. *)
Theorem switch_invalid_leaves_state (state : string) (w : World)
  (Hgpt : state <> "gpt") (Hsonnet : state <> "sonnet") :
  let (result, w') := switch_state state w in
  result = false
  /\ hd_error (trace w') = Some (EvPrint invalid_state_msg)
  /\ repo w' = repo w
  /\ (Git.head <$> repo w') = (Git.head <$> repo w)
  /\ (Git.branches <$> repo w') = (Git.branches <$> repo w)
  /\ wt w' = wt w
  /\ others w' = others w
  /\ stdin w' = stdin w.
Proof.
  rewrite (switch_state_invalid state w Hgpt Hsonnet).
  repeat split; reflexivity.
Qed.

(** C10: the check of the variant name comes first.  For an unknown name,
    [switch_state] returns False with the invalid-state message as its only
    event: the client is not looked up and not run, also where it is not
    installed or where the directory holds no repository (there the
    messages of those checks are not the ones printed). *)
Theorem switch_invalid_precedes_environment (state : string) (w : World)
  (Hgpt : state <> "gpt") (Hsonnet : state <> "sonnet") :
  fst (switch_state state w) = false
  /\ trace (snd (switch_state state w)) = EvPrint invalid_state_msg :: trace w
  /\ git_calls (trace (snd (switch_state state w))) = git_calls (trace w)
  /\ (git_installed w = false ->
      hd_error (trace (snd (switch_state state w)))
      <> Some (EvPrint "Git not found in PATH."))
  /\ (repo w = None ->
      hd_error (trace (snd (switch_state state w)))
      <> Some (EvPrint "Not a git repo. Run --init first.")).
Proof.
  rewrite (switch_state_invalid state w Hgpt Hsonnet). simpl.
  repeat split; intros; discriminate.
Qed.

Lemma switch_invalid_leaves_state_witness :
  "preedit" <> "gpt" /\ "preedit" <> "sonnet"
  /\ let (result, w') := switch_state "preedit" Scenario.w_dirty_gpt in
     result = false
     /\ hd_error (trace w') = Some (EvPrint invalid_state_msg)
     /\ repo w' = repo Scenario.w_dirty_gpt
     /\ (Git.head <$> repo w') = Some (Git.OnBranch "gpt")
     /\ (Git.branches <$> repo w') = Some Scenario.distinct_branches
     /\ wt w' = wt Scenario.w_dirty_gpt
     /\ others w' = []
     /\ stdin w' = [].
Proof.
  split; [discriminate|]. split; [discriminate|].
  apply (switch_invalid_leaves_state "preedit" Scenario.w_dirty_gpt);
    discriminate.
Defined.

Lemma switch_invalid_precedes_environment_witness :
  "claude" <> "gpt" /\ "claude" <> "sonnet"
  /\ git_installed Scenario.w_no_client = false
  /\ repo Scenario.w_no_client = None
  /\ fst (switch_state "claude" Scenario.w_no_client) = false
  /\ trace (snd (switch_state "claude" Scenario.w_no_client)) = [EvPrint invalid_state_msg].
Proof.
  split; [discriminate|]. split; [discriminate|].
  split; [reflexivity|]. split; [reflexivity|].
  pose proof (switch_invalid_precedes_environment "claude" Scenario.w_no_client
                ltac:(discriminate) ltac:(discriminate)) as (H1 & H2 & _).
  split; [exact H1 | exact H2].
Defined.

(** ** Events only accumulate *)


Lemma extends_ret {A} (a : A) : extends (ret a).
Proof. intros w. exists []. reflexivity. Qed.

Lemma extends_bind {A B} (m : M A) (k : A -> M B) :
  extends m -> (forall a, extends (k a)) -> extends (bind m k).
Proof.
  intros Hm Hk w. unfold bind.
  destruct (Hm w) as [l1 H1]. destruct (m w) as [a w1]. simpl in H1.
  destruct (Hk a w1) as [l2 H2]. exists (l2 ++ l1).
  rewrite H2, H1. apply app_assoc.
Qed.

Lemma extends_if {A} (c : bool) (m1 m2 : M A) :
  extends m1 -> extends m2 -> extends (if c then m1 else m2).
Proof. destruct c; auto. Qed.

Lemma extends_print (text : string) : extends (print text).
Proof. intros w. exists [EvPrint text]. reflexivity. Qed.

Lemma extends_subprocess_run (c : Git.Cmd) : extends (subprocess_run c).
Proof.
  intros w. exists [EvGit c]. unfold subprocess_run. simpl.
  destruct (git_installed w); [|reflexivity].
  destruct (Git.exec _ _ _ _) as [[o r'] t']. reflexivity.
Qed.

Lemma extends_check_git_available : extends check_git_available.
Proof.
  intros w. unfold check_git_available.
  destruct (git_installed w); [exists [] | eexists [_]]; reflexivity.
Qed.

Lemma extends_git_dir_exists : extends git_dir_exists.
Proof. intros w. exists []. reflexivity. Qed.

Create HintDb extends.
#[local] Hint Resolve extends_ret extends_bind extends_if extends_print
  extends_subprocess_run extends_check_git_available extends_git_dir_exists
  : extends.

Lemma extends_run_git_command (c : Git.Cmd) : extends (run_git_command c).
Proof.
  unfold run_git_command. apply extends_bind; [auto with extends|].
  intros [o|]; auto 6 with extends.
Qed.

Lemma extends_run_git_capture (c : Git.Cmd) : extends (run_git_capture c).
Proof. unfold run_git_capture. auto with extends. Qed.

#[local] Hint Resolve extends_run_git_command extends_run_git_capture : extends.

Lemma extends_get_current_branch : extends get_current_branch.
Proof. unfold get_current_branch. auto with extends. Qed.

Lemma extends_branch_exists (b : string) : extends (branch_exists b).
Proof. unfold branch_exists. auto with extends. Qed.

#[local] Hint Resolve extends_get_current_branch extends_branch_exists : extends.

Lemma extends_first_existing (l : list string) : extends (first_existing l).
Proof. induction l; simpl; auto with extends. Qed.

Lemma extends_delete_branches (l : list string) : extends (delete_branches l).
Proof. induction l; simpl; auto 8 with extends. Qed.

#[local] Hint Resolve extends_first_existing extends_delete_branches : extends.

Lemma extends_cleanup : extends cleanup_switcher_branches.
Proof.
  unfold cleanup_switcher_branches.
  apply extends_bind; [auto with extends | intros _].
  apply extends_bind; [auto with extends | intros current].
  apply extends_bind; [auto with extends | intros safe].
  apply extends_bind; [unfold land; destruct safe | intros landed]; auto 8 with extends.
Qed.

(** ** Reset asks first *)


(** Whatever is answered, the prompt is the first event after the three
    warnings: every client invocation of the run comes later. *)
Lemma extends_reset_confirmed : extends reset_confirmed.
Proof.
  pose proof extends_cleanup. unfold reset_confirmed. auto 10 with extends.
Qed.

Lemma reset_asks_first (w : World) :
  exists later,
    trace (snd (reset_to_initial_state w))
    = later ++ EvInput reset_prompt (hd_error (stdin w)) :: reset_warnings ++ trace w
    /\ (affirmative (default EmptyString (hd_error (stdin w))) = false ->
        Forall (fun e => is_git e = false) later).
Proof.
  unfold reset_to_initial_state, bind, print, input, affirmative. simpl.
  destruct (stdin w) as [|line rest]; simpl.
  - exists []. split; [reflexivity | constructor].
  - destruct (String.eqb (lower (strip line)) "y") eqn:Hy; simpl.
    + match goal with
      | |- context [ reset_confirmed ?w0 ] =>
          destruct (extends_reset_confirmed w0) as [l Hl];
          destruct (reset_confirmed w0) as [done w1]
      end.
      exists l. split; [exact Hl | discriminate].
    + exists [EvPrint "Reset aborted."]. split; [reflexivity|].
      constructor; [reflexivity | constructor].
Qed.

(** ** The client model: working-tree facts *)

Lemma lstrip_has_nonspace (s : string) :
  has_nonspace s = true ->
  exists c s', lstrip s = String c s' /\ is_space c = false.
Proof.
  induction s as [|c s IH]; simpl; [discriminate|].
  destruct (is_space c) eqn:Hc; simpl; intros H.
  - apply IH, H.
  - eauto.
Qed.

Lemma strip_has_nonspace (s : string) :
  has_nonspace s = true -> is_empty (strip s) = false.
Proof.
  intros H. destruct (lstrip_has_nonspace s H) as (c & s' & Hl & Hc).
  unfold strip. rewrite Hl. simpl. rewrite Hc. reflexivity.
Qed.

Lemma has_nonspace_app (s1 s2 : string) :
  has_nonspace (s1 +:+ s2) = has_nonspace s1 || has_nonspace s2.
Proof.
  induction s1 as [|c s1 IH]; simpl; [reflexivity|].
  rewrite IH. apply orb_assoc.
Qed.

Lemma rstrip_line (b : string) : no_space b = true -> rstrip (b +:+ nl) = b.
Proof.
  induction b as [|c b IH]; simpl; [reflexivity|].
  intros H. apply andb_true_iff in H as [Hc Hb].
  apply negb_true_iff in Hc. rewrite Hc, (IH Hb). reflexivity.
Qed.

Lemma strip_line (b : string) : no_space b = true -> strip (b +:+ nl) = b.
Proof.
  intros H. unfold strip.
  destruct b as [|c b]; [reflexivity|].
  simpl in H. apply andb_true_iff in H as [Hc Hb].
  assert (lstrip (String c b +:+ nl) = String c b +:+ nl) as ->.
  { simpl. apply negb_true_iff in Hc. rewrite Hc. reflexivity. }
  apply rstrip_line. simpl. rewrite Hc, Hb. reflexivity.
Qed.

Lemma diffset_empty_iff (a b : gmap string string) : Git.diffset a b = ∅ <-> a = b.
Proof.
  unfold Git.diffset. split.
  - intros H. apply map_eq. intros p.
    destruct (decide (a !! p = b !! p)) as [|Hne]; [assumption|].
    exfalso. apply (not_elem_of_empty (C := gset string) p).
    rewrite <- H. apply elem_of_filter. split; [exact Hne|].
    apply elem_of_union. rewrite !elem_of_dom.
    destruct (a !! p) eqn:Ha; [left; eauto|].
    destruct (b !! p) eqn:Hb; [right; eauto|]. congruence.
  - intros ->. apply set_eq. intros p. rewrite elem_of_filter.
    split; [intros [Hne _]; congruence | intros Hin].
    exfalso. exact (not_elem_of_empty p Hin).
Qed.

Lemma changed_empty_iff (r : Git.Repo) (t : gmap string string) :
  Git.changed r t = ∅ <-> clean r t.
Proof.
  unfold Git.changed, clean. rewrite empty_union_L, !diffset_empty_iff. tauto.
Qed.

Lemma letter_space (o n : option string) :
  has_nonspace (Git.letter o n) = false -> o = n.
Proof.
  destruct o as [x|], n as [y|]; simpl; try discriminate; try reflexivity.
  destruct (String.eqb x y) eqn:E; simpl; [|discriminate].
  apply String.eqb_eq in E. congruence.
Qed.

Lemma status_line_nonspace (r : Git.Repo) (t : gmap string string) (p : string) :
  p ∈ Git.changed r t -> has_nonspace (Git.status_line r t p) = true.
Proof.
  intros Hp. unfold Git.status_line. rewrite has_nonspace_app.
  apply orb_true_iff. left.
  destruct (Git.head_tree r !! p) as [h|] eqn:Hh, (Git.index r !! p) as [i|] eqn:Hi;
    try reflexivity; rewrite has_nonspace_app;
    match goal with
    | |- has_nonspace ?a || has_nonspace ?b = true =>
        destruct (has_nonspace a) eqn:Ea; [reflexivity|];
        destruct (has_nonspace b) eqn:Eb; [reflexivity|];
        apply letter_space in Ea; apply letter_space in Eb
    end;
    exfalso; unfold Git.changed, Git.diffset in Hp;
    rewrite elem_of_union, !elem_of_filter in Hp;
    rewrite Hh, Hi in Hp; rewrite <- Eb in Hp; destruct Hp as [[Hp _]|[Hp _]];
    congruence.
Qed.

(** The status output is empty exactly on a clean tree; this is all the
    program looks at. *)
Lemma status_truthy (r : Git.Repo) (t : gmap string string) :
  truthy (Some (strip (Git.status_text r t)))
  = negb (bool_decide (Git.changed r t = ∅)).
Proof.
  unfold Git.status_text, truthy.
  destruct (elements (Git.changed r t)) as [|p ps] eqn:E.
  - apply elements_empty_inv in E. apply leibniz_equiv in E.
    rewrite bool_decide_eq_true_2 by exact E. reflexivity.
  - assert (p ∈ Git.changed r t) as Hp
      by (apply elem_of_elements; rewrite E; left).
    rewrite bool_decide_eq_false_2
      by (intros H0; rewrite H0 in Hp; exact (not_elem_of_empty p Hp)).
    simpl. rewrite strip_has_nonspace; [reflexivity|].
    rewrite has_nonspace_app, (status_line_nonspace r t p Hp). reflexivity.
Qed.

Lemma status_clean (r : Git.Repo) (t : gmap string string) :
  clean r t -> truthy (Some (strip (Git.status_text r t))) = false.
Proof.
  intros H. rewrite status_truthy.
  rewrite bool_decide_eq_true_2 by (apply changed_empty_iff, H). reflexivity.
Qed.

Lemma status_dirty (r : Git.Repo) (t : gmap string string) :
  ~ clean r t -> truthy (Some (strip (Git.status_text r t))) = true.
Proof.
  intros H. rewrite status_truthy.
  rewrite bool_decide_eq_false_2 by (rewrite changed_empty_iff; exact H).
  reflexivity.
Qed.

Lemma carry_empty (mine t : gmap string string) : Git.carry ∅ mine t = t.
Proof.
  unfold Git.carry. apply map_eq. intros p.
  rewrite lookup_union, !map_lookup_filter.
  destruct (mine !! p) as [x|], (t !! p) as [y|]; simpl;
    repeat case_guard; simpl in *; try reflexivity;
    exfalso;
    match goal with
    | H : _ ∈ ∅ |- _ => exact (not_elem_of_empty _ H)
    | H : ~ (_ ∉ ∅) |- _ => apply H; apply not_elem_of_empty
    end.
Qed.



(** ** The methods inside a repository *)

Ltac pre := first [ reflexivity | assumption | simpl; assumption
                  | unfold known_name; tauto ].

Ltac wsimpl :=
  cbn [wt repo git_installed trace others stdin dir_name now initial_branch
       log with_repo_wt with_wt with_stdin].

Ltac gsimpl :=
  cbn [Git.head Git.branches Git.index Git.config
       Git.set_index Git.set_head Git.set_branches Git.set_config].

Lemma run_git_command_in (w : World) (r : Git.Repo) (c : Git.Cmd) :
  git_installed w = true -> repo w = Some r ->
  run_git_command c w =
  (let '(o, r', t') := Git.exec_in c r (wt w) in
   ((Git.code o =? 0)%Z,
    let w' := with_repo_wt (log (EvGit c) w) (Some r') t' in
    if (Git.code o =? 0)%Z then w'
    else if (Git.code o =? 128)%Z
         then log (EvPrint "Git error: Repository operation failed") w' else w')).
Proof.
  intros Hi Hr. destruct w as [gi ib rp t oth dn nw si tr]. simpl in *. subst.
  unfold run_git_command, subprocess_run, bind, ret. simpl.
  destruct (Git.exec_in c r t) as [[o r'] t']. simpl.
  destruct (Git.code o =? 0)%Z; [reflexivity|].
  destruct (Git.code o =? 128)%Z; reflexivity.
Qed.

Lemma run_git_capture_in (w : World) (r : Git.Repo) (c : Git.Cmd) :
  git_installed w = true -> repo w = Some r ->
  run_git_capture c w =
  (let '(o, r', t') := Git.exec_in c r (wt w) in
   (if (Git.code o =? 0)%Z then Some (strip (Git.stdout o)) else None,
    with_repo_wt (log (EvGit c) w) (Some r') t')).
Proof.
  intros Hi Hr. destruct w as [gi ib rp t oth dn nw si tr]. simpl in *. subst.
  unfold run_git_capture, subprocess_run, bind, ret. simpl.
  destruct (Git.exec_in c r t) as [[o r'] t']. reflexivity.
Qed.

Lemma branch_exists_in (w : World) (r : Git.Repo) (b : string) :
  git_installed w = true -> repo w = Some r -> known_name b ->
  branch_exists b w = (has_branch r b, log (EvGit (Git.BranchList b)) w).
Proof.
  intros Hi Hr Hb. destruct w as [gi ib rp t oth dn nw si tr]. simpl in *. subst.
  unfold branch_exists, run_git_capture, subprocess_run, bind, ret, has_branch. simpl.
  destruct Hb as [->|[->|[->|[->| ->]]]];
    (destruct (Git.branches r !! _); simpl; [destruct (Git.on_branch r _)|]; reflexivity).
Qed.

Lemma get_current_branch_in (w : World) (r : Git.Repo) :
  git_installed w = true -> repo w = Some r ->
  get_current_branch w = (current_name r, log (EvGit Git.BranchShowCurrent) w).
Proof.
  intros Hi Hr. destruct w as [gi ib rp t oth dn nw si tr]. simpl in *. subst.
  unfold get_current_branch, run_git_capture, subprocess_run, bind, ret, current_name. simpl.
  destruct (Git.head r) as [b|c]; simpl; [|reflexivity].
  destruct (is_empty _); reflexivity.
Qed.

Lemma current_name_on (r : Git.Repo) (b : string) :
  Git.head r = Git.OnBranch b -> no_space b = true -> b <> "" -> current_name r = b.
Proof.
  intros Hh Hn Hb. unfold current_name. rewrite Hh, (strip_line b Hn).
  destruct b; [congruence | reflexivity].
Qed.

(** Checking out a branch from a clean tree always succeeds and leaves the
    tree clean, on that branch. *)
Lemma checkout_clean (w : World) (r : Git.Repo) (b : string) (c : Git.Commit) :
  git_installed w = true -> repo w = Some r ->
  clean r (wt w) -> Git.branches r !! b = Some c ->
  run_git_command (Git.Checkout b) w =
  (true, with_repo_wt (log (EvGit (Git.Checkout b)) w)
           (Some (Git.MkRepo (Git.branches r) (Git.OnBranch b) (Git.c_tree c) (Git.config r)))
           (Git.c_tree c)).
Proof.
  intros Hi Hr Hc Hb. rewrite (run_git_command_in w r) by pre.
  cbn [Git.exec_in]. rewrite Hb.
  assert (Git.changed r (wt w) = ∅) as Hch by (apply changed_empty_iff; exact Hc).
  unfold Git.checkout_blocked. rewrite Hch.
  rewrite bool_decide_eq_true_2
    by (apply set_eq; intros x; rewrite elem_of_intersection;
        split; [intros [H _]; exact H | intros H; exfalso; exact (not_elem_of_empty x H)]).
  cbn [negb]. rewrite !carry_empty. reflexivity.
Qed.
(** ** Switching with pending changes *)



(** The checks of lines 168-186 pass and lead to the settling of changes. *)
Lemma switch_state_reaches_settle (w : World) (r : Git.Repo) (current state : string)
  (target : Git.Commit) :
  git_installed w = true -> repo w = Some r ->
  state = "gpt" \/ state = "sonnet" ->
  Git.head r = Git.OnBranch current -> no_space current = true -> current <> "" ->
  current <> state ->
  Git.branches r !! state = Some target ->
  switch_state state w =
  (let w0 := log (EvGit Git.BranchShowCurrent) (log (EvGit (Git.BranchList state)) w) in
   let (settled, w1) := settle_changes current state w0 in
   if negb settled then (false, w1)
   else
     let (switched, w2) :=
       run_git_command (Git.Checkout state) (log (EvPrint ("Switching to " +:+ state +:+ "...")) w1) in
     if switched then (true, log (EvPrint ("Now on " +:+ state)) w2)
     else (false, log (EvPrint ("Failed to switch to " +:+ state)) w2)).
Proof.
  intros Hi Hr Hs Hh Hn Hne Hd Ht.
  assert (elem state ["gpt"; "sonnet"] = true) as He
    by (destruct Hs as [-> | ->]; reflexivity).
  unfold switch_state. rewrite He. cbn [negb].
  unfold bind, check_git_available, git_dir_exists. rewrite Hi. cbn [negb].
  rewrite Hr. cbn [negb].
  rewrite (branch_exists_in w r state)
    by (try assumption; unfold known_name; destruct Hs; tauto).
  unfold has_branch. rewrite Ht. cbn [negb].
  rewrite (get_current_branch_in _ r) by pre.
  rewrite (current_name_on r current Hh Hn Hne).
  apply String.eqb_neq in Hd. rewrite Hd.
  destruct (settle_changes _ _ _) as [settled w1].
  destruct settled; cbn [negb]; [|reflexivity].
  unfold print, ret.
  destruct (run_git_command _ _) as [switched w2]. destruct switched; reflexivity.
Qed.



(** ** Reset: the declined confirmation *)

(** C9: [reset_to_initial_state] reads the confirmation right after its
    three warnings, before any other step, in every world.  When the answer,
    stripped and lowered, is not [y], it prints the abort message and
    returns False: the client is not run, and repository, working tree and
    directory entries are what they were. *)
Theorem reset_declined_no_effects (w : World) (line : string) (rest : list string)
  (Hinput : stdin w = line :: rest) (Hdeclined : affirmative line = false) :
  (forall w0, exists later,
      trace (snd (reset_to_initial_state w0))
      = later ++ EvInput reset_prompt (hd_error (stdin w0)) :: reset_warnings ++ trace w0)
  /\ let (outcome, w') := reset_to_initial_state w in
     outcome = Returned false
     /\ trace w' = EvPrint "Reset aborted." :: EvInput reset_prompt (Some line)
                   :: reset_warnings ++ trace w
     /\ git_calls (trace w') = git_calls (trace w)
     /\ repo w' = repo w
     /\ wt w' = wt w
     /\ others w' = others w
     /\ stdin w' = rest.
Proof.
  split.
  - intros w0. destruct (reset_asks_first w0) as (later & H & _). eauto.
  - unfold affirmative in Hdeclined.
    unfold reset_to_initial_state, bind, print, input, ret. simpl.
    rewrite Hinput. simpl. rewrite Hdeclined. simpl.
    repeat split; reflexivity.
Qed.

Lemma reset_declined_no_effects_witness :
  affirmative "yes" = false
  /\ let (outcome, w') := reset_to_initial_state (Scenario.w_clean_sonnet ["yes"]) in
     outcome = Returned false
     /\ git_calls (trace w') = []
     /\ repo w' = repo (Scenario.w_clean_sonnet ["yes"])
     /\ wt w' = Scenario.tree_v2.
Proof.
  split; [reflexivity|].
  pose proof (reset_declined_no_effects (Scenario.w_clean_sonnet ["yes"]) "yes" []
                eq_refl eq_refl) as [_ H].
  destruct (reset_to_initial_state (Scenario.w_clean_sonnet ["yes"])) as [outcome w'].
  destruct H as (Ho & _ & Hg & Hr & Hw & _).
  repeat split; assumption.
Defined.

Example affirmative_examples :
  affirmative "y" = true /\ affirmative "  Y " = true /\ affirmative "" = false
  /\ affirmative "n" = false /\ affirmative "yes" = false.
Proof. repeat split; reflexivity. Qed.

(** ** The archive and the switcher's own script *)

Lemma archive_entries_members (zip_name : string) (entries : list Entry)
  (members : list string) (w : World) :
  fst (archive_entries zip_name entries members w)
  = members ++ map (fun e => path_str (e_parts e)) (List.filter (archived zip_name) entries).
Proof.
  revert members w.
  induction entries as [|e rest IH]; intros members w; cbn [archive_entries List.filter].
  - simpl. rewrite app_nil_r. reflexivity.
  - unfold archived at 1.
    destruct (e_is_file e); cbn [negb andb orb]; [|apply IH].
    destruct (String.eqb (name_of (e_parts e)) zip_name); cbn [negb andb orb]; [apply IH|].
    destruct (elem (name_of (e_parts e)) script_files); cbn [negb andb orb]; [apply IH|].
    destruct (should_exclude (e_parts e)); cbn [negb andb orb].
    + unfold bind, print. apply IH.
    + destruct (e_readable e); cbn [map].
      * rewrite IH, <- app_assoc. reflexivity.
      * unfold bind, print. apply IH.
Qed.

(** C5, at the input where the code departs from it: the directory holds
    the switcher script under the name the program itself records in the
    ignore list, [codebase_switcher2.py], next to a file named [switch.py].
    The archive operation succeeds, the script is a member of the archive,
    and the file named [switch.py] is the one that is left out. *)
Theorem archive_keeps_switcher_script :
  let (result, w') := create_zip Scenario.w_with_script in
  result = true
  /\ elem switcher_entry (archive_members (wt w') Scenario.zip_0805) = true
  /\ elem "switch.py" (archive_members (wt w') Scenario.zip_0805) = false
  /\ elem "app.py" (archive_members (wt w') Scenario.zip_0805) = true
  /\ elem "build/output.zip" (archive_members (wt w') Scenario.zip_0805) = false
  /\ elem switcher_entry script_files = false.
Proof. vm_compute. repeat split; reflexivity. Qed.

(** ** Steps that only record events *)

Lemma only_logs_refl (w : World) : only_logs w w.
Proof. exists []. destruct w; reflexivity. Qed.

Lemma only_logs_log (e : Event) (w : World) : only_logs w (log e w).
Proof. exists [e]. reflexivity. Qed.

Lemma only_logs_trans (w1 w2 w3 : World) :
  only_logs w1 w2 -> only_logs w2 w3 -> only_logs w1 w3.
Proof.
  intros [l1 ->] [l2 ->]. exists (l2 ++ l1). simpl. rewrite app_assoc. reflexivity.
Qed.

Lemma only_logs_fields (w w' : World) :
  only_logs w w' ->
  git_installed w' = git_installed w /\ initial_branch w' = initial_branch w
  /\ repo w' = repo w /\ wt w' = wt w /\ others w' = others w
  /\ dir_name w' = dir_name w /\ now w' = now w /\ stdin w' = stdin w
  /\ exists l, trace w' = l ++ trace w.
Proof. intros [l ->]. simpl. repeat split; eauto. Qed.

Lemma only_logs_print (text : string) (w : World) : only_logs w (snd (print text w)).
Proof. apply only_logs_log. Qed.

Lemma with_repo_wt_same (w : World) (r : Git.Repo) :
  repo w = Some r -> with_repo_wt w (Some r) (wt w) = w.
Proof. intros H. destruct w. simpl in *. subst. reflexivity. Qed.

Lemma subprocess_run_in (w : World) (r : Git.Repo) (c : Git.Cmd) :
  git_installed w = true -> repo w = Some r ->
  subprocess_run c w =
  (let '(o, r', t') := Git.exec_in c r (wt w) in
   (Some o, with_repo_wt (log (EvGit c) w) (Some r') t')).
Proof.
  intros Hi Hr. destruct w as [gi ib rp t oth dn nw si tr]. simpl in *. subst.
  unfold subprocess_run. simpl.
  destruct (Git.exec_in c r t) as [[o r'] t']. reflexivity.
Qed.

(** ** The verification before the archive *)

Lemma all_exist_in (names : list string) (w : World) (r : Git.Repo) :
  git_installed w = true -> repo w = Some r -> Forall known_name names ->
  exists w', all_exist names w = (forallb (has_branch r) names, w') /\ only_logs w w'.
Proof.
  intros Hi Hr Hk. revert w Hi Hr.
  induction Hk as [|b names Hb Hk IH]; intros w Hi Hr; cbn [all_exist forallb].
  - eexists. split; [reflexivity | apply only_logs_refl].
  - unfold bind. rewrite (branch_exists_in w r b Hi Hr Hb).
    destruct (has_branch r b); cbn [negb andb].
    + destruct (IH (log (EvGit (Git.BranchList b)) w)) as (w' & Hw' & Hl); try pre.
      exists w'. split; [exact Hw'|].
      eapply only_logs_trans; [apply only_logs_log | exact Hl].
    + eexists. split; [reflexivity|].
      eapply only_logs_trans; apply only_logs_log.
Qed.

Lemma diff_quiet_code (r : Git.Repo) (t : gmap string string) (b1 b2 : string) :
  Git.exec_in (Git.DiffQuiet b1 b2) r t
  = (Git.fail (match Git.branches r !! b1, Git.branches r !! b2 with
               | Some c1, Some c2 =>
                   if bool_decide (Git.c_tree c1 = Git.c_tree c2) then 0 else 1
               | _, _ => 128
               end)%Z, r, t).
Proof.
  simpl. destruct (Git.branches r !! b1), (Git.branches r !! b2); reflexivity.
Qed.

Lemma collect_identical_in (pairs acc : list (string * string)) (w : World) (r : Git.Repo) :
  git_installed w = true -> repo w = Some r ->
  exists w',
    collect_identical pairs acc w = (Some (acc ++ List.filter (identical_in r) pairs), w')
    /\ only_logs w w'.
Proof.
  revert acc w. induction pairs as [|[b1 b2] pairs IH]; intros acc w Hi Hr;
    cbn [collect_identical List.filter].
  - rewrite app_nil_r. eexists. split; [reflexivity | apply only_logs_refl].
  - unfold bind. rewrite (subprocess_run_in w r) by pre.
    rewrite diff_quiet_code. cbn [Git.fail Git.code].
    rewrite (with_repo_wt_same (log _ w) r) by pre.
    destruct (IH (if (match Git.branches r !! b1, Git.branches r !! b2 with
                      | Some c1, Some c2 =>
                          if bool_decide (Git.c_tree c1 = Git.c_tree c2) then 0 else 1
                      | _, _ => 128
                      end =? 0)%Z then acc ++ [(b1, b2)] else acc)
                 (log (EvGit (Git.DiffQuiet b1 b2)) w)) as (w' & Hw' & Hl); try pre.
    exists w'. split; [|eapply only_logs_trans; [apply only_logs_log | exact Hl]].
    rewrite Hw'. unfold identical_in. cbn [fst snd].
    destruct (Git.branches r !! b1) as [c1|], (Git.branches r !! b2) as [c2|];
      try (cbn [Z.eqb]; reflexivity).
    destruct (bool_decide (Git.c_tree c1 = Git.c_tree c2)); cbn [Z.eqb];
      [rewrite <- app_assoc|]; reflexivity.
Qed.

Lemma print_identical_logs (l : list (string * string)) (w : World) :
  only_logs w (snd (print_identical l w)).
Proof.
  revert w. induction l as [|[b1 b2] l IH]; intros w; cbn [print_identical].
  - apply only_logs_refl.
  - unfold bind, print. eapply only_logs_trans; [apply only_logs_log | apply IH].
Qed.

Lemma verify_in (w : World) (r : Git.Repo) :
  git_installed w = true -> repo w = Some r ->
  exists w',
    verify_branches_different w
    = (forallb (has_branch r) states
       && is_nil (List.filter (identical_in r) branch_pairs), w')
    /\ only_logs w w'
    /\ (forallb (has_branch r) states = true ->
        is_nil (List.filter (identical_in r) branch_pairs) = false ->
        In (EvPrint identical_msg) (trace w')).
Proof.
  intros Hi Hr. unfold verify_branches_different, bind, print.
  destruct (all_exist_in states (log (EvPrint "Verifying branches are different...") w) r)
    as (w1 & Hw1 & Hl1); try pre.
  { unfold states, known_name. repeat constructor; tauto. }
  cbn [snd]. rewrite Hw1.
  destruct (only_logs_fields _ _ Hl1) as (Hgi & _ & Hrp & _).
  destruct (forallb (has_branch r) states); cbn [negb andb].
  - destruct (collect_identical_in branch_pairs [] w1 r) as (w2 & Hw2 & Hl2).
    { rewrite Hgi. exact Hi. } { rewrite Hrp. exact Hr. }
    rewrite Hw2. cbn [app].
    assert (only_logs w w2) as Hl
      by (eapply only_logs_trans; [apply only_logs_log|];
          eapply only_logs_trans; eassumption).
    destruct (List.filter (identical_in r) branch_pairs) as [|p ps]; cbn [is_nil].
    + eexists. split; [reflexivity|]. split; [|discriminate].
      eapply only_logs_trans; [exact Hl | apply only_logs_log].
    + pose proof (print_identical_logs (p :: ps) (log (EvPrint identical_msg) w2)) as Hl3.
      destruct (print_identical (p :: ps) (log (EvPrint identical_msg) w2)) as [u w3].
      cbn [snd] in Hl3. unfold ret.
      exists w3. split; [reflexivity|]. split.
      * eapply only_logs_trans; [exact Hl|].
        eapply only_logs_trans; [apply only_logs_log | exact Hl3].
      * intros _ _. destruct (only_logs_fields _ _ Hl3) as (_ & _ & _ & _ & _ & _ & _ & _ & l & Ht).
        rewrite Ht. apply in_or_app. right. left. reflexivity.
  - exists w1. split; [reflexivity|]. split; [|discriminate].
    eapply only_logs_trans; [apply only_logs_log | exact Hl1].
Qed.

Lemma commit_index_clean (r : Git.Repo) (t : gmap string string) (msg : string) :
  clean (Git.commit_index (Git.set_index r t) msg) t.
Proof.
  destruct r as [bs [b|c] i cf];
    unfold clean, Git.commit_index, Git.head_tree, Git.head_commit; simpl.
  - rewrite lookup_insert_eq. split; reflexivity.
  - split; reflexivity.
Qed.

(** After the auto-commit of lines 308-317 nothing is pending, and the
    directory is as it was. *)
Lemma zip_autocommit_settles (w w1 : World) (r : Git.Repo) :
  git_installed w = true -> repo w = Some r ->
  zip_autocommit w = (true, w1) ->
  exists r1,
    repo w1 = Some r1 /\ clean r1 (wt w1) /\ git_installed w1 = true
    /\ wt w1 = wt w /\ others w1 = others w /\ dir_name w1 = dir_name w
    /\ now w1 = now w.
Proof.
  intros Hi Hr. unfold zip_autocommit, bind.
  rewrite (run_git_capture_in w r) by pre. cbn [Git.exec_in Z.eqb Git.code Git.stdout].
  destruct (decide (clean r (wt w))) as [Hc|Hd].
  - rewrite (status_clean r (wt w) Hc). unfold ret. intros [= <-]. wsimpl.
    exists r. repeat split; try assumption; apply Hc.
  - rewrite (status_dirty r (wt w) Hd).
    rewrite (get_current_branch_in _ r) by pre. unfold print. wsimpl.
    rewrite (run_git_command_in _ r) by pre.
    cbn [Git.exec_in Z.eqb Git.code negb Git.ok]. unfold ret. wsimpl.
    rewrite (run_git_command_in _ (Git.set_index r (wt w))) by pre.
    cbn [Git.exec_in]. wsimpl.
    destruct (bool_decide _); cbn [Z.eqb Git.code negb Git.ok Git.fail];
      [intros [= ?]; discriminate|].
    intros [= <-]. wsimpl. eexists. split; [reflexivity|].
    split; [apply commit_index_clean|]. repeat split; assumption.
Qed.

(** ** Archiving indistinguishable branches *)




(** ** Cleanup *)

Lemma exec_keeps_files (ib : string) (c : Git.Cmd) (r : option Git.Repo)
  (t : gmap string string) :
  touches_files c = false -> snd (Git.exec ib c r t) = t.
Proof.
  intros Hc. unfold Git.exec. destruct r as [r|].
  - destruct (Git.exec_in c r t) as [[o r'] t'] eqn:E. simpl.
    destruct c; try discriminate Hc; simpl in E;
      repeat match type of E with
             | context [match ?x with _ => _ end] => destruct x
             end; congruence.
  - destruct c; reflexivity.
Qed.

Lemma subprocess_run_keeps_files (c : Git.Cmd) (w : World) :
  touches_files c = false -> wt (snd (subprocess_run c w)) = wt w.
Proof.
  intros Hc. unfold subprocess_run. cbn [git_installed log repo wt initial_branch].
  destruct (git_installed w); [|reflexivity].
  pose proof (exec_keeps_files (initial_branch w) c (repo w) (wt w) Hc) as H.
  destruct (Git.exec _ _ _ _) as [[o r'] t']. exact H.
Qed.

Lemma run_git_command_keeps_files (c : Git.Cmd) (w : World) :
  touches_files c = false -> wt (snd (run_git_command c w)) = wt w.
Proof.
  intros Hc. unfold run_git_command, bind.
  pose proof (subprocess_run_keeps_files c w Hc) as H.
  destruct (subprocess_run c w) as [[o|] w1]; cbn [snd] in *; [|exact H].
  destruct (Git.code o =? 0)%Z; [exact H|].
  destruct (Git.code o =? 128)%Z; exact H.
Qed.

Lemma branch_exists_keeps_files (b : string) (w : World) :
  wt (snd (branch_exists b w)) = wt w.
Proof.
  unfold branch_exists, run_git_capture, bind.
  pose proof (subprocess_run_keeps_files (Git.BranchList b) w eq_refl) as H.
  destruct (subprocess_run _ w) as [o w1]. exact H.
Qed.

(** Deleting branches never touches a file of the directory. *)
Lemma delete_branches_keeps_files (names : list string) (w : World) :
  wt (snd (delete_branches names w)) = wt w.
Proof.
  revert w. induction names as [|b names IH]; intros w; cbn [delete_branches].
  - reflexivity.
  - unfold bind.
    pose proof (branch_exists_keeps_files b w) as H1.
    destruct (branch_exists b w) as [present w1]. cbn [snd] in H1.
    destruct present.
    + unfold print.
      pose proof (run_git_command_keeps_files (Git.BranchDelete b)
                    (log (EvPrint ("Deleting " +:+ b +:+ " branch...")) w1) eq_refl) as H2.
      destruct (run_git_command _ _) as [deleted w2]. cbn [snd] in H2.
      unfold ret. rewrite IH. rewrite H2. exact H1.
    + unfold ret. rewrite IH. exact H1.
Qed.

Lemma first_existing_in (w : World) (r : Git.Repo) :
  git_installed w = true -> repo w = Some r ->
  exists w', first_existing ["main"; "master"] w = (trunk_of r, w') /\ only_logs w w'.
Proof.
  intros Hi Hr. cbn [first_existing]. unfold bind, trunk_of.
  rewrite (branch_exists_in w r "main") by pre.
  destruct (has_branch r "main").
  - eexists. split; [reflexivity | apply only_logs_log].
  - rewrite (branch_exists_in _ r "master") by pre.
    destruct (has_branch r "master"); (eexists; split; [reflexivity|]);
      eapply only_logs_trans; apply only_logs_log.
Qed.

Lemma trunk_of_Some (r : Git.Repo) (safe : string) :
  trunk_of r = Some safe ->
  (safe = "main" \/ safe = "master") /\ has_branch r safe = true.
Proof.
  unfold trunk_of.
  destruct (has_branch r "main") eqn:E1; [intros [= <-]; tauto|].
  destruct (has_branch r "master") eqn:E2; [intros [= <-]; tauto | discriminate].
Qed.

(** A managed branch that is checked out is what [get_current_branch]
    answers. *)
Lemma on_managed_branch (r : Git.Repo) (b : string) :
  In b states -> Git.on_branch r b = true -> elem (current_name r) states = true.
Proof.
  intros Hb Hon. unfold Git.on_branch in Hon. unfold current_name.
  destruct (Git.head r) as [b'|c]; [|discriminate].
  apply String.eqb_eq in Hon. subst b'.
  destruct Hb as [<-|[<-|[<-|[]]]]; reflexivity.
Qed.

(** The deletion loop in a repository that holds the three branches, none
    of them checked out. *)
Lemma delete_managed (w : World) (r : Git.Repo) :
  git_installed w = true -> repo w = Some r ->
  forallb (has_branch r) states = true ->
  (forall b, In b states -> Git.on_branch r b = false) ->
  exists w',
    delete_branches states w = (tt, w')
    /\ git_installed w' = true
    /\ repo w' = Some (Git.set_branches r
                         (delete "sonnet" (delete "gpt" (delete "preedit" (Git.branches r)))))
    /\ wt w' = wt w.
Proof.
  intros Hi Hr Hall Hoff.
  cbn [forallb states] in Hall.
  apply andb_true_iff in Hall as [Hp Hall]. apply andb_true_iff in Hall as [Hg Hall].
  apply andb_true_iff in Hall as [Hs _].
  assert (Git.on_branch r "preedit" = false) as Op by (apply Hoff; simpl; tauto).
  assert (Git.on_branch r "gpt" = false) as Og by (apply Hoff; simpl; tauto).
  assert (Git.on_branch r "sonnet" = false) as Os by (apply Hoff; simpl; tauto).
  unfold has_branch in Hp, Hg, Hs.
  destruct (Git.branches r !! "preedit") as [cp|] eqn:Ep; [|discriminate].
  destruct (Git.branches r !! "gpt") as [cg|] eqn:Eg; [|discriminate].
  destruct (Git.branches r !! "sonnet") as [cs|] eqn:Es; [|discriminate].
  unfold states. cbn [delete_branches]. unfold bind, print, ret.
  (* preedit *)
  rewrite (branch_exists_in w r "preedit") by pre. unfold has_branch at 1. rewrite Ep.
  rewrite (run_git_command_in _ r) by pre. cbn [Git.exec_in]. rewrite Ep, Op.
  cbn [Z.eqb Git.code Git.ok]. wsimpl.
  (* gpt *)
  rewrite (branch_exists_in _ (Git.set_branches r (delete "preedit" (Git.branches r))) "gpt")
    by pre.
  unfold has_branch at 1. cbn [Git.branches Git.set_branches].
  rewrite (lookup_delete_ne (Git.branches r) "preedit" "gpt") by discriminate. rewrite Eg.
  rewrite (run_git_command_in _ (Git.set_branches r (delete "preedit" (Git.branches r))))
    by pre.
  cbn [Git.exec_in Git.branches Git.set_branches].
  rewrite (lookup_delete_ne (Git.branches r) "preedit" "gpt") by discriminate. rewrite Eg.
  change (Git.on_branch (Git.set_branches r (delete "preedit" (Git.branches r))) "gpt")
    with (Git.on_branch r "gpt").
  rewrite Og. cbn [Z.eqb Git.code Git.ok]. wsimpl.
  (* sonnet *)
  set (r2 := Git.set_branches (Git.set_branches r (delete "preedit" (Git.branches r)))
               (delete "gpt" (delete "preedit" (Git.branches r)))).
  assert (Git.branches r2 !! "sonnet" = Some cs) as Es2.
  { unfold r2. cbn [Git.branches Git.set_branches].
    rewrite !lookup_delete_ne by discriminate. exact Es. }
  rewrite (branch_exists_in _ r2 "sonnet") by pre.
  unfold has_branch at 1. rewrite Es2.
  rewrite (run_git_command_in _ r2) by pre.
  cbn [Git.exec_in]. rewrite Es2.
  change (Git.on_branch r2 "sonnet") with (Git.on_branch r "sonnet").
  rewrite Os. cbn [Z.eqb Git.code Git.ok]. wsimpl.
  eexists. split; [reflexivity|]. wsimpl.
  split; [exact Hi|]. split; reflexivity.
Qed.

Lemma managed_deleted (m : gmap string Git.Commit) (b : string) :
  In b states ->
  delete "sonnet" (delete "gpt" (delete "preedit" m)) !! b = None.
Proof.
  intros [<-|[<-|[<-|[]]]].
  - rewrite !lookup_delete_ne by discriminate. apply lookup_delete_eq.
  - rewrite lookup_delete_ne by discriminate. apply lookup_delete_eq.
  - apply lookup_delete_eq.
Qed.

Lemma land_in (w : World) (r : Git.Repo) :
  git_installed w = true -> repo w = Some r ->
  (forall safe c, trunk_of r = Some safe -> Git.branches r !! safe = Some c ->
                  Git.checkout_blocked r (wt w) (Git.c_tree c) = false) ->
  exists w2 r2,
    land (current_name r) (trunk_of r) w = (true, w2)
    /\ git_installed w2 = true /\ repo w2 = Some r2
    /\ (forall b, In b states -> has_branch r2 b = has_branch r b)
    /\ (forall b, In b states -> Git.on_branch r2 b = false)
    /\ (if lands_on_trunk r then on_trunk (Git.head r2) else Git.head r2 = Git.head r).
Proof.
  intros Hi Hr Hland. unfold land, lands_on_trunk.
  destruct (trunk_of r) as [safe|] eqn:Et.
  - destruct (trunk_of_Some r safe Et) as [Hsafe Hhas].
    unfold has_branch in Hhas.
    destruct (Git.branches r !! safe) as [c|] eqn:Ec; [|discriminate].
    destruct (elem (current_name r) states) eqn:Ecur; cbn [orb negb].
    + unfold bind, print, ret.
      rewrite (run_git_command_in _ r) by pre. cbn [Git.exec_in]. wsimpl.
      rewrite Ec, (Hland safe c eq_refl Ec). cbn [Z.eqb Git.code Git.ok negb]. wsimpl.
      eexists _, _. split; [reflexivity|]. wsimpl.
      split; [exact Hi|]. split; [reflexivity|]. split; [|split].
      * intros b _. reflexivity.
      * intros b Hb. unfold Git.on_branch. cbn [Git.head Git.set_head].
        destruct Hsafe as [-> | ->]; destruct Hb as [<-|[<-|[<-|[]]]]; reflexivity.
      * cbn [Git.head Git.set_head]. unfold on_trunk.
        destruct Hsafe as [-> | ->]; tauto.
    + unfold ret. exists w, r. split; [reflexivity|].
      split; [exact Hi|]. split; [exact Hr|]. split; [reflexivity|]. split; [|reflexivity].
      intros b Hb. destruct (Git.on_branch r b) eqn:Eon; [|reflexivity].
      rewrite (on_managed_branch r b Hb Eon) in Ecur. discriminate.
  - assert (Git.branches r !! "main" = None) as Em.
    { unfold trunk_of, has_branch in Et.
      destruct (Git.branches r !! "main"); [discriminate | reflexivity]. }
    rewrite orb_true_r.
    unfold bind, print, ret.
    rewrite (run_git_command_in _ r) by pre. cbn [Git.exec_in]. wsimpl. rewrite Em.
    destruct (Git.head_commit r) as [c|]; cbn [Z.eqb Git.code Git.ok negb]; wsimpl;
      (eexists _, _; split; [reflexivity|]; wsimpl;
       split; [exact Hi|]; split; [reflexivity|]; split; [|split];
       [ intros b Hb; unfold has_branch; cbn [Git.branches Git.set_head Git.set_branches];
         try (rewrite lookup_insert_ne
               by (destruct Hb as [<-|[<-|[<-|[]]]]; discriminate)); reflexivity
       | intros b Hb; unfold Git.on_branch; cbn [Git.head Git.set_head];
         destruct Hb as [<-|[<-|[<-|[]]]]; reflexivity
       | cbn [Git.head Git.set_head]; left; reflexivity ]).
Qed.

Lemma cleanup_in (w : World) (r : Git.Repo) :
  git_installed w = true -> repo w = Some r ->
  forallb (has_branch r) states = true ->
  (forall safe c, trunk_of r = Some safe -> Git.branches r !! safe = Some c ->
                  Git.checkout_blocked r (wt w) (Git.c_tree c) = false) ->
  exists w' r',
    cleanup_switcher_branches w = (true, w')
    /\ repo w' = Some r'
    /\ (forall b, In b states -> Git.branches r' !! b = None)
    /\ (if lands_on_trunk r then on_trunk (Git.head r') else Git.head r' = Git.head r).
Proof.
  intros Hi Hr Hall Hland. unfold cleanup_switcher_branches, bind, print.
  rewrite (get_current_branch_in _ r) by pre.
  destruct (first_existing_in
              (log (EvGit Git.BranchShowCurrent)
                   (log (EvPrint "Cleaning up switcher branches...") w)) r)
    as (w1 & Hf & Hl1); try pre.
  rewrite Hf.
  destruct (only_logs_fields _ _ Hl1) as (Hgi1 & _ & Hrp1 & Hwt1 & _).
  destruct (land_in w1 r) as (w2 & r2 & Hland2 & Hi2 & Hr2 & Hhas & Hoff & Hhead).
  { rewrite Hgi1. exact Hi. } { rewrite Hrp1. exact Hr. }
  { intros safe c. rewrite Hwt1. apply Hland. }
  rewrite Hland2. cbn [negb].
  destruct (delete_managed w2 r2 Hi2 Hr2) as (w3 & Hd & Hi3 & Hr3 & Hwt3).
  { rewrite <- Hall. unfold states. cbn [forallb].
    rewrite !Hhas by (simpl; tauto). reflexivity. }
  { exact Hoff. }
  rewrite Hd. unfold ret. eexists _, _. split; [reflexivity|]. wsimpl.
  split; [exact Hr3|]. split.
  - intros b Hb. cbn [Git.branches Git.set_branches]. apply managed_deleted, Hb.
  - exact Hhead.
Qed.

(** ** The archive operation ends with the cleanup *)

Lemma archive_entries_logs (zip_name : string) (entries : list Entry)
  (members : list string) (w : World) :
  only_logs w (snd (archive_entries zip_name entries members w)).
Proof.
  revert members w.
  induction entries as [|e rest IH]; intros members w; cbn [archive_entries].
  - apply only_logs_refl.
  - destruct (e_is_file e); cbn [negb]; [|apply IH].
    destruct (_ || _); [apply IH|].
    destruct (should_exclude (e_parts e)).
    + unfold bind, print. eapply only_logs_trans; [apply only_logs_log | apply IH].
    + destruct (e_readable e); [apply IH|].
      unfold bind, print. eapply only_logs_trans; [apply only_logs_log | apply IH].
Qed.

(** The archive file, new in the directory, does not stand in the way of a
    checkout from an otherwise clean tree. *)
Lemma not_blocked_by_archive (r : Git.Repo) (t : gmap string string)
  (zip_name bytes : string) (c : Git.Commit) :
  clean r t -> t !! zip_name = None -> Git.c_tree c !! zip_name = None ->
  Git.checkout_blocked r (<[zip_name := bytes]> (<[zip_name := EmptyString]> t)) (Git.c_tree c)
  = false.
Proof.
  intros [Hidx Hwt] Hnone Hc. unfold Git.checkout_blocked.
  rewrite bool_decide_eq_true_2; [reflexivity|].
  apply set_eq. intros p. split; [|intros Hp; exfalso; exact (not_elem_of_empty p Hp)].
  rewrite elem_of_intersection. unfold Git.changed, Git.diffset.
  rewrite elem_of_union, !elem_of_filter. intros [[[Hp _]|[Hp _]] [Hq _]]; exfalso.
  - apply Hp. rewrite Hidx. reflexivity.
  - destruct (decide (p = zip_name)) as [->|Hne].
    + apply Hq. rewrite <- Hidx, <- Hwt, Hnone, Hc. reflexivity.
    + apply Hp. rewrite !lookup_insert_ne by congruence. rewrite Hwt. reflexivity.
Qed.

(** C7 (amended): a successful archive operation runs the cleanup.
    Provided the archive's name is new to the directory and to the trunk
    branch, none of the three managed branches exists afterwards.  [HEAD] is
    on [main] or [master] when the operation started on a managed branch or
    when neither trunk existed (then [main] is created); started from any
    other position while a trunk exists, [HEAD] stays where it was.  The
    deletion of branches leaves every file of the directory as it is. *)
Theorem archive_success_cleanup (w w1 w' : World) (r r1 : Git.Repo)
  (Hinst : git_installed w = true) (Hrepo : repo w = Some r)
  (Hauto : zip_autocommit w = (true, w1)) (Hrepo1 : repo w1 = Some r1)
  (Hok : create_zip w = (true, w'))
  (Hfresh : wt w !! zip_name_of (dir_name w) (now w) = None)
  (Htrunk : forall safe c,
      trunk_of r1 = Some safe -> Git.branches r1 !! safe = Some c ->
      Git.c_tree c !! zip_name_of (dir_name w) (now w) = None) :
  exists r',
    repo w' = Some r'
    /\ (forall b, In b states -> Git.branches r' !! b = None)
    /\ (if lands_on_trunk r1 then on_trunk (Git.head r') else Git.head r' = Git.head r1)
    /\ (forall names w0, wt (snd (delete_branches names w0)) = wt w0).
Proof.
  destruct (zip_autocommit_settles w w1 r Hinst Hrepo Hauto)
    as (r1' & Hr1' & Hclean & Hi1 & Hwt1 & Hoth1 & Hdir1 & Hnow1).
  assert (r1' = r1) by congruence. subst r1'.
  revert Hok. unfold create_zip, bind, check_git_available, git_dir_exists.
  rewrite Hinst. cbn [negb]. rewrite Hrepo. cbn [negb].
  unfold and_then at 1. unfold bind. rewrite Hauto.
  unfold and_then, bind.
  destruct (verify_in w1 r1 Hi1 Hrepo1) as (w2 & Hv & Hl & _).
  rewrite Hv.
  destruct (forallb (has_branch r1) states) eqn:Hall; cbn [andb]; [|discriminate].
  destruct (is_nil _); [|discriminate].
  destruct (only_logs_fields _ _ Hl) as (Hgi2 & _ & Hrp2 & Hwt2 & _ & Hdir2 & Hnow2 & _).
  unfold write_zip, bind, get_now, get_dir_name, print, write_text, rglob, ret.
  wsimpl. rewrite Hdir2, Hnow2, Hdir1, Hnow1.
  set (zn := zip_name_of (dir_name w) (now w)) in *.
  match goal with
  | |- context [archive_entries zn ?es [] ?w0] =>
      pose proof (archive_entries_logs zn es [] w0) as Hae;
      destruct (archive_entries zn es [] w0) as [members w3]
  end.
  cbn [snd] in Hae.
  destruct (only_logs_fields _ _ Hae) as (Hgi3 & _ & Hrp3 & Hwt3 & _).
  revert Hgi3 Hrp3 Hwt3. wsimpl. intros Hgi3 Hrp3 Hwt3.
  match goal with
  | |- context [cleanup_switcher_branches ?w0] =>
      destruct (cleanup_in w0 r1) as (w4 & r4 & Hcl & Hr4 & Hgone & Hhead)
  end.
  { wsimpl. congruence. }
  { wsimpl. congruence. }
  { exact Hall. }
  { intros safe c Hs Hc. wsimpl. rewrite Hwt3, Hwt2.
    apply not_blocked_by_archive; [exact Hclean | congruence | exact (Htrunk safe c Hs Hc)]. }
  rewrite Hcl. intros [= <-].
  exists r4. split; [exact Hr4|]. split; [exact Hgone|]. split; [exact Hhead|].
  exact delete_branches_keeps_files.
Qed.

(** C7 as stated fails for a user who has checked out a branch of their
    own while [main] exists: the archive is written, the managed branches go
    away, and [HEAD] stays on that branch. *)
Lemma archive_cleanup_counterexample :
  fst (create_zip Scenario.w_feature) = true
  /\ archive_members (wt (snd (create_zip Scenario.w_feature))) Scenario.zip_0805 = ["app.py"]
  /\ (Git.head <$> repo (snd (create_zip Scenario.w_feature))) = Some (Git.OnBranch "feature")
  /\ (dom <$> (Git.branches <$> repo (snd (create_zip Scenario.w_feature))))
     = Some ({[ "main"; "feature" ]} : gset string)
  /\ ~ on_trunk (Git.OnBranch "feature").
Proof.
  split; [vm_compute; reflexivity|]. split; [vm_compute; reflexivity|].
  split; [vm_compute; reflexivity|]. split; [vm_compute; reflexivity|].
  unfold on_trunk. intros [H|H]; discriminate.
Qed.

Lemma archive_success_cleanup_witness :
  let w := Scenario.w_clean_sonnet [] in
  zip_autocommit w = (true, snd (zip_autocommit w))
  /\ create_zip w = (true, snd (create_zip w))
  /\ lands_on_trunk Scenario.r_on_sonnet = true
  /\ exists r',
      repo (snd (create_zip w)) = Some r'
      /\ (forall b, In b states -> Git.branches r' !! b = None)
      /\ on_trunk (Git.head r').
Proof.
  cbv zeta.
  assert (zip_autocommit (Scenario.w_clean_sonnet [])
          = (true, snd (zip_autocommit (Scenario.w_clean_sonnet [])))) as Hauto
    by (vm_compute; reflexivity).
  assert (create_zip (Scenario.w_clean_sonnet [])
          = (true, snd (create_zip (Scenario.w_clean_sonnet [])))) as Hok
    by (vm_compute; reflexivity).
  split; [exact Hauto|]. split; [exact Hok|]. split; [reflexivity|].
  destruct (archive_success_cleanup
              (Scenario.w_clean_sonnet []) (snd (zip_autocommit (Scenario.w_clean_sonnet [])))
              (snd (create_zip (Scenario.w_clean_sonnet [])))
              Scenario.r_on_sonnet Scenario.r_on_sonnet
              eq_refl eq_refl Hauto ltac:(vm_compute; reflexivity) Hok
              ltac:(vm_compute; reflexivity))
    as (r' & Hr' & Hgone & Hhead & _).
  - intros safe c Hs Hc. vm_compute in Hs. injection Hs as <-.
    vm_compute in Hc. injection Hc as <-. vm_compute. reflexivity.
  - exists r'. split; [exact Hr'|]. split; [exact Hgone|]. exact Hhead.
Defined.

(** ** The ignore-list file *)





Lemma append_assoc (a b c : string) : (a +:+ b) +:+ c = a +:+ (b +:+ c).
Proof.
  induction a as [|x a IH]; [reflexivity|].
  change (String x ((a +:+ b) +:+ c) = String x (a +:+ (b +:+ c))).
  f_equal. exact IH.
Qed.




(** ** The phases of [initialize] *)














(** ** Initializing twice *)



(** ** The ignore list after initialization *)




(* ===================================================================== *)
(** * Further properties of the code *)
(* ===================================================================== *)

(** ** Patterns without and with a star *)




Lemma fnmatch_star_suffix (ext stem : string) :
  Fnmatch.matches (Fnmatch.translate ext) ext = true ->
  Fnmatch.fnmatch (stem +:+ ext) ("*" +:+ ext) = true.
Proof.
  intros H. unfold Fnmatch.fnmatch.
  change (Fnmatch.translate ("*" +:+ ext)) with (Fnmatch.Star :: Fnmatch.translate ext).
  apply matches_star_prefix. exact H.
Qed.

Lemma extension_excluded (dirs : list string) (stem ext : string) :
  In ext excluded_extensions -> should_exclude (dirs ++ [stem +:+ ext]) = true.
Proof.
  intros Hext.
  apply (should_exclude_with_segment _ _ ("*" +:+ ext) (stem +:+ ext)).
  - unfold excluded_extensions in Hext. unfold zip_exclude_patterns.
    destruct Hext as [<-|[<-|[<-|[<-|[]]]]]; simpl; tauto.
  - apply in_or_app. right. left. reflexivity.
  - apply fnmatch_star_suffix.
    unfold excluded_extensions in Hext.
    destruct Hext as [<-|[<-|[<-|[<-|[]]]]]; reflexivity.
Qed.

(** X2: a file whose name ends in [.env], [.zip], [.DS_Store] or
    [.code] is excluded in every directory, at any depth, whatever precedes
    the extension. *)
Theorem extension_excluded_everywhere (dirs : list string) (stem ext : string)
  (Hext : In ext excluded_extensions) :
  should_exclude (dirs ++ [stem +:+ ext]) = true.
Proof. exact (extension_excluded dirs stem ext Hext). Qed.

Lemma extension_excluded_everywhere_witness :
  In ".env" excluded_extensions
  /\ should_exclude (["config"; "prod"] ++ ["secrets" +:+ ".env"]) = true.
Proof.
  split; [simpl; tauto|].
  apply (extension_excluded_everywhere ["config"; "prod"] "secrets" ".env").
  simpl; tauto.
Defined.

(** X3: the name [create_zip] gives an archive ends in [.zip], so an
    archive of an earlier run, wherever it lies, is never a member of a
    later one. *)
Theorem earlier_archives_excluded (dirs : list string) (dir : string) (d : DateTime) :
  should_exclude (dirs ++ [zip_name_of dir d]) = true.
Proof.
  unfold zip_name_of.
  replace ("codebase_" +:+ dir +:+ "_" +:+ stamp_zip d +:+ ".zip")
    with (("codebase_" +:+ dir +:+ "_" +:+ stamp_zip d) +:+ ".zip")
    by (rewrite !append_assoc; reflexivity).
  apply extension_excluded. simpl. tauto.
Qed.

(** ** Queries and checks outside a usable repository *)

(** X4: [get_current_branch] answers [main] whenever the client reports
    no branch name: without client, without repository, and on a detached
    [HEAD]; it changes nothing. *)
Theorem current_branch_fallback (w : World) (Hnone : no_branch_reported w) :
  fst (get_current_branch w) = "main"
  /\ repo (snd (get_current_branch w)) = repo w
  /\ wt (snd (get_current_branch w)) = wt w.
Proof.
  destruct w as [gi ib rp t oth dn nw si tr].
  unfold no_branch_reported in Hnone. simpl in Hnone.
  unfold get_current_branch, run_git_capture, subprocess_run, bind, ret. simpl.
  destruct gi; [|repeat split; reflexivity].
  destruct rp as [r|]; [|repeat split; reflexivity].
  destruct Hnone as [H|[H|(r' & c & [= <-] & Hd)]]; try discriminate.
  simpl. rewrite Hd. repeat split; reflexivity.
Qed.

Lemma current_branch_fallback_witness :
  no_branch_reported Scenario2.w_detached
  /\ fst (get_current_branch Scenario2.w_detached) = "main".
Proof.
  assert (no_branch_reported Scenario2.w_detached) as H.
  { right. right. exists Scenario2.r_detached, Scenario.c_gpt. split; reflexivity. }
  split; [exact H|].
  exact (proj1 (current_branch_fallback Scenario2.w_detached H)).
Defined.

(** X5: without the client, or in a directory without repository,
    [switch_state], [create_zip] and the confirmed part of
    [reset_to_initial_state] return False after one message and nothing
    else: the client is not run and nothing is changed.  Without the client
    the same holds for [initialize]. *)
Theorem refused_without_repository (w : World) (state : string)
  (Hmissing : git_installed w = false \/ repo w = None) :
  refuses (switch_state state) w
  /\ refuses create_zip w
  /\ refuses reset_confirmed w
  /\ (git_installed w = false -> refuses initialize w).
Proof.
  unfold refuses, switch_state, create_zip, reset_confirmed, initialize, and_then, bind,
    check_git_available, git_dir_exists, print, ret.
  destruct (negb (elem state ["gpt"; "sonnet"]));
    destruct (git_installed w) eqn:Hi; cbn [negb fst snd];
    destruct Hmissing as [H|H]; try discriminate; try rewrite H; cbn [negb fst snd];
    repeat split; try discriminate; eauto.
Qed.

Lemma refused_without_repository_witness :
  git_installed Scenario.w_fresh = true /\ repo Scenario.w_fresh = None
  /\ create_zip Scenario.w_fresh
     = (false, log (EvPrint "Not a git repo. Run --init first.") Scenario.w_fresh)
  /\ refuses (switch_state "gpt") Scenario.w_fresh.
Proof.
  split; [reflexivity|]. split; [reflexivity|]. split; [reflexivity|].
  exact (proj1 (refused_without_repository Scenario.w_fresh "gpt" (or_intror eq_refl))).
Defined.

(** ** Switching: the remaining paths *)

(** X6: when the target branch does not exist, [switch_state] asks the
    client for it once, prints that the state does not exist and returns
    False; repository and directory are untouched. *)
Theorem switch_to_missing_branch (w : World) (r : Git.Repo) (state : string)
  (Hinst : git_installed w = true) (Hrepo : repo w = Some r)
  (Hstate : state = "gpt" \/ state = "sonnet")
  (Hmissing : Git.branches r !! state = None) :
  switch_state state w
  = (false,
     log (EvPrint ("State '" +:+ state +:+ "' doesn't exist. Run --init first."))
       (log (EvGit (Git.BranchList state)) w)).
Proof.
  assert (elem state ["gpt"; "sonnet"] = true) as He
    by (destruct Hstate as [-> | ->]; reflexivity).
  unfold switch_state. rewrite He. cbn [negb].
  unfold bind, check_git_available, git_dir_exists. rewrite Hinst. cbn [negb].
  rewrite Hrepo. cbn [negb].
  rewrite (branch_exists_in w r state)
    by (try assumption; unfold known_name; destruct Hstate; tauto).
  unfold has_branch. rewrite Hmissing. reflexivity.
Qed.

Lemma switch_to_missing_branch_witness :
  Git.branches Scenario2.r_no_sonnet !! "sonnet" = None
  /\ fst (switch_state "sonnet" Scenario2.w_no_sonnet) = false
  /\ repo (snd (switch_state "sonnet" Scenario2.w_no_sonnet)) = repo Scenario2.w_no_sonnet.
Proof.
  split; [vm_compute; reflexivity|].
  rewrite (switch_to_missing_branch Scenario2.w_no_sonnet Scenario2.r_no_sonnet "sonnet"
             eq_refl eq_refl (or_intror eq_refl) ltac:(vm_compute; reflexivity)).
  split; reflexivity.
Defined.

(** X7: asked for the branch that is checked out, [switch_state] reports
    so and returns True after two queries; pending changes in the working
    tree are neither committed nor discarded. *)
Theorem switch_to_current_branch (w : World) (r : Git.Repo) (state : string) (tip : Git.Commit)
  (Hinst : git_installed w = true) (Hrepo : repo w = Some r)
  (Hstate : state = "gpt" \/ state = "sonnet")
  (Hhead : Git.head r = Git.OnBranch state)
  (Htip : Git.branches r !! state = Some tip) :
  switch_state state w
  = (true,
     log (EvPrint ("Already on " +:+ state))
       (log (EvGit Git.BranchShowCurrent) (log (EvGit (Git.BranchList state)) w))).
Proof.
  assert (elem state ["gpt"; "sonnet"] = true) as He
    by (destruct Hstate as [-> | ->]; reflexivity).
  assert (no_space state = true /\ state <> "") as [Hn Hne]
    by (destruct Hstate as [-> | ->]; split; (reflexivity || discriminate)).
  unfold switch_state. rewrite He. cbn [negb].
  unfold bind, check_git_available, git_dir_exists. rewrite Hinst. cbn [negb].
  rewrite Hrepo. cbn [negb].
  rewrite (branch_exists_in w r state)
    by (try assumption; unfold known_name; destruct Hstate; tauto).
  unfold has_branch. rewrite Htip. cbn [negb].
  rewrite (get_current_branch_in _ r) by pre.
  rewrite (current_name_on r state Hhead Hn Hne), String.eqb_refl. reflexivity.
Qed.

Lemma switch_to_current_branch_witness :
  wt Scenario.w_dirty_gpt <> Git.head_tree Scenario.r_on_gpt
  /\ fst (switch_state "gpt" Scenario.w_dirty_gpt) = true
  /\ wt (snd (switch_state "gpt" Scenario.w_dirty_gpt)) = wt Scenario.w_dirty_gpt
  /\ repo (snd (switch_state "gpt" Scenario.w_dirty_gpt)) = repo Scenario.w_dirty_gpt.
Proof.
  split.
  { intros H. apply (f_equal (fun m => m !! "app.py")) in H. vm_compute in H. discriminate. }
  rewrite (switch_to_current_branch Scenario.w_dirty_gpt Scenario.r_on_gpt "gpt" Scenario.c_gpt
             eq_refl eq_refl (or_introl eq_refl) eq_refl ltac:(vm_compute; reflexivity)).
  repeat split; reflexivity.
Defined.

Lemma settle_clean (w : World) (r : Git.Repo) (current state : string) :
  git_installed w = true -> repo w = Some r -> clean r (wt w) ->
  settle_changes current state w = (true, log (EvGit Git.StatusPorcelain) w).
Proof.
  intros Hi Hr Hc. unfold settle_changes, bind.
  rewrite (run_git_capture_in w r) by pre. cbn [Git.exec_in Z.eqb Git.code Git.stdout].
  rewrite (status_clean r (wt w) Hc). unfold ret.
  rewrite (with_repo_wt_same (log _ w) r) by pre. reflexivity.
Qed.

Lemma switch_clean_run (w : World) (r : Git.Repo) (current state : string)
  (target : Git.Commit) :
  git_installed w = true -> repo w = Some r ->
  state = "gpt" \/ state = "sonnet" ->
  Git.head r = Git.OnBranch current -> no_space current = true -> current <> "" ->
  current <> state ->
  Git.branches r !! state = Some target ->
  clean r (wt w) ->
  switch_state state w
  = (true,
     log (EvPrint ("Now on " +:+ state))
       (with_repo_wt
          (log (EvGit (Git.Checkout state))
             (log (EvPrint ("Switching to " +:+ state +:+ "..."))
                (log (EvGit Git.StatusPorcelain)
                   (log (EvGit Git.BranchShowCurrent)
                      (log (EvGit (Git.BranchList state)) w)))))
          (Some (Git.MkRepo (Git.branches r) (Git.OnBranch state) (Git.c_tree target)
                            (Git.config r)))
          (Git.c_tree target))).
Proof.
  intros Hi Hr Hs Hh Hn Hne Hd Ht Hc.
  rewrite (switch_state_reaches_settle w r current state target) by assumption.
  cbv zeta. rewrite (settle_clean _ r) by pre. cbn [negb].
  rewrite (checkout_clean _ r state target) by pre. reflexivity.
Qed.

(** X8: a switch from a clean working tree runs the checkout and nothing
    else that writes: no branch moves, [HEAD] is on the target, and the
    directory holds the target's snapshot. *)
Theorem switch_from_clean_tree (w : World) (r : Git.Repo) (current state : string)
  (target : Git.Commit)
  (Hinst : git_installed w = true) (Hrepo : repo w = Some r)
  (Hstate : state = "gpt" \/ state = "sonnet")
  (Hhead : Git.head r = Git.OnBranch current)
  (Hname : no_space current = true) (Hnonempty : current <> "")
  (Hdiff : current <> state)
  (Htarget : Git.branches r !! state = Some target)
  (Hclean : clean r (wt w)) :
  let (result, w') := switch_state state w in
  result = true
  /\ repo w' = Some (Git.MkRepo (Git.branches r) (Git.OnBranch state) (Git.c_tree target)
                                (Git.config r))
  /\ wt w' = Git.c_tree target
  /\ git_calls (history w')
     = git_calls (history w)
       ++ [ Git.BranchList state; Git.BranchShowCurrent; Git.StatusPorcelain;
            Git.Checkout state ].
Proof.
  rewrite (switch_clean_run w r current state target) by assumption.
  split; [reflexivity|]. split; [reflexivity|]. split; [reflexivity|].
  unfold history, git_calls. wsimpl. cbn [rev].
  rewrite !omap_app. cbn [omap]. rewrite ?app_nil_r, <- ?app_assoc. reflexivity.
Qed.

Lemma switch_from_clean_tree_witness :
  clean Scenario.r_on_gpt (wt Scenario2.w_clean_gpt)
  /\ let (result, w') := switch_state "sonnet" Scenario2.w_clean_gpt in
     result = true
     /\ (Git.branches <$> repo w') = Some Scenario.distinct_branches
     /\ (Git.head <$> repo w') = Some (Git.OnBranch "sonnet")
     /\ wt w' = Scenario.tree_v2.
Proof.
  assert (clean Scenario.r_on_gpt (wt Scenario2.w_clean_gpt)) as Hc
    by (split; vm_compute; reflexivity).
  split; [exact Hc|].
  pose proof (switch_from_clean_tree Scenario2.w_clean_gpt Scenario.r_on_gpt "gpt" "sonnet"
                Scenario.c_sonnet eq_refl eq_refl (or_intror eq_refl) eq_refl eq_refl
                ltac:(discriminate) ltac:(discriminate) ltac:(vm_compute; reflexivity) Hc) as H.
  destruct (switch_state "sonnet" Scenario2.w_clean_gpt) as [result w'].
  destruct H as (H1 & H2 & H3 & _).
  split; [exact H1|]. rewrite H2. repeat split; exact H3.
Defined.




(** ** Initialization: from nothing, and of an existing project *)










(** ** The deletion loop and the cleanup *)

Lemma delete_branches_in (names : list string) (w : World) (r : Git.Repo) :
  Forall known_name names ->
  git_installed w = true -> repo w = Some r ->
  exists w' r',
    delete_branches names w = (tt, w')
    /\ git_installed w' = true /\ repo w' = Some r'
    /\ wt w' = wt w
    /\ Git.head r' = Git.head r /\ Git.index r' = Git.index r
    /\ (forall b, ~ In b names -> Git.branches r' !! b = Git.branches r !! b)
    /\ (forall b, Git.on_branch r b = true -> Git.branches r' !! b = Git.branches r !! b)
    /\ (forall b, In b names -> Git.on_branch r b = false -> Git.branches r' !! b = None).
Proof.
  intros Hk. revert w r.
  induction Hk as [|name names Hname Hk IH]; intros w r Hi Hr; cbn [delete_branches].
  - unfold ret. exists w, r. repeat split; try assumption; try reflexivity.
    intros b [].
  - unfold bind. rewrite (branch_exists_in w r name Hi Hr Hname).
    unfold has_branch.
    destruct (Git.branches r !! name) as [c|] eqn:Ec.
    + unfold print. rewrite (run_git_command_in _ r) by pre.
      cbn [Git.exec_in]. rewrite Ec.
      destruct (Git.on_branch r name) eqn:Eon;
        cbn [Z.eqb Git.code Git.ok Git.fail]; unfold ret; wsimpl.
      * match goal with
        | |- context [delete_branches names ?w0] =>
            destruct (IH w0 r) as (w' & r' & H1 & H2 & H3 & H4 & H5 & H6 & H7 & H8 & H9)
        end; try pre.
        exists w', r'. split; [exact H1|]. split; [exact H2|]. split; [exact H3|].
        split; [exact H4|]. split; [exact H5|]. split; [exact H6|].
        split; [intros b Hb; apply H7; intros Hin; apply Hb; right; exact Hin|].
        split; [exact H8|].
        intros b [<-|Hin] Hoff; [congruence | exact (H9 b Hin Hoff)].
      * set (r1 := Git.set_branches r (delete name (Git.branches r))).
        match goal with
        | |- context [delete_branches names ?w0] =>
            destruct (IH w0 r1) as (w' & r' & H1 & H2 & H3 & H4 & H5 & H6 & H7 & H8 & H9)
        end; try pre.
        exists w', r'. split; [exact H1|]. split; [exact H2|]. split; [exact H3|].
        split; [exact H4|]. split; [exact H5|]. split; [exact H6|].
        split; [|split].
        -- intros b Hb. rewrite H7 by (intros Hin; apply Hb; right; exact Hin).
           unfold r1. gsimpl. apply lookup_delete_ne. intros ->. apply Hb. left. reflexivity.
        -- intros b Hon. rewrite (H8 b Hon). unfold r1. gsimpl.
           apply lookup_delete_ne. intros ->. congruence.
        -- intros b Hin Hoff. destruct (in_dec String.string_dec b names) as [Hb|Hb].
           ++ exact (H9 b Hb Hoff).
           ++ rewrite (H7 b Hb). destruct Hin as [<-|Hin]; [|contradiction].
              unfold r1. gsimpl. apply lookup_delete_eq.
    + unfold ret.
      destruct (IH (log (EvGit (Git.BranchList name)) w) r)
        as (w' & r' & H1 & H2 & H3 & H4 & H5 & H6 & H7 & H8 & H9); try pre.
      exists w', r'. split; [exact H1|]. split; [exact H2|]. split; [exact H3|].
      split; [exact H4|]. split; [exact H5|]. split; [exact H6|].
      split; [intros b Hb; apply H7; intros Hin; apply Hb; right; exact Hin|].
      split; [exact H8|].
      intros b [<-|Hin] Hoff; [|exact (H9 b Hin Hoff)].
      destruct (in_dec String.string_dec name names) as [Hb|Hb]; [exact (H9 name Hb Hoff)|].
      rewrite (H7 name Hb). exact Ec.
Qed.

(** X13: the deletion loop of the cleanup removes each managed branch
    that is not checked out, and nothing else: every other branch keeps its
    tip, the branch that is checked out survives, and [HEAD], the index and
    the files of the directory are as before. *)
Theorem deletion_spares_other_branches (w : World) (r : Git.Repo)
  (Hinst : git_installed w = true) (Hrepo : repo w = Some r) :
  exists r',
    repo (snd (delete_branches states w)) = Some r'
    /\ wt (snd (delete_branches states w)) = wt w
    /\ Git.head r' = Git.head r /\ Git.index r' = Git.index r
    /\ (forall b, ~ In b states -> Git.branches r' !! b = Git.branches r !! b)
    /\ (forall b, Git.on_branch r b = true -> Git.branches r' !! b = Git.branches r !! b)
    /\ (forall b, In b states -> Git.on_branch r b = false -> Git.branches r' !! b = None).
Proof.
  destruct (delete_branches_in states w r) as (w' & r' & H1 & _ & H3 & H4 & H5 & H6 & H7);
    try assumption.
  { unfold states, known_name. repeat constructor; tauto. }
  rewrite H1. exists r'. cbn [snd]. repeat split; tauto.
Qed.

Lemma deletion_spares_other_branches_witness :
  exists r',
    repo (snd (delete_branches states (Scenario.w_clean_sonnet []))) = Some r'
    /\ Git.branches r' !! "master" = Some Scenario.c_base
    /\ Git.branches r' !! "sonnet" = Some Scenario.c_sonnet
    /\ Git.branches r' !! "gpt" = None.
Proof.
  destruct (deletion_spares_other_branches (Scenario.w_clean_sonnet []) Scenario.r_on_sonnet
              eq_refl eq_refl) as (r' & H1 & _ & _ & _ & H5 & H6 & H7).
  exists r'. split; [exact H1|]. split; [|split].
  - rewrite H5; [vm_compute; reflexivity|]. simpl. intros [H|[H|[H|[]]]]; discriminate.
  - rewrite H6; [vm_compute; reflexivity | reflexivity].
  - apply H7; [simpl; tauto | reflexivity].
Defined.






(** X15: the cleanup in a repository without [main] and [master]
    creates [main] at the commit of [HEAD], moves [HEAD] there and deletes
    the three managed branches; index and directory are untouched, pending
    changes included. *)
Theorem cleanup_creates_main (w : World) (r : Git.Repo) (c : Git.Commit)
  (Hinst : git_installed w = true) (Hrepo : repo w = Some r)
  (Hall : forallb (has_branch r) states = true)
  (Hnotrunk : trunk_of r = None)
  (Hcommit : Git.head_commit r = Some c) :
  let (result, w') := cleanup_switcher_branches w in
  result = true
  /\ repo w' = Some (Git.MkRepo (without_managed (<["main" := c]> (Git.branches r)))
                                (Git.OnBranch "main") (Git.index r) (Git.config r))
  /\ wt w' = wt w.
Proof.
  unfold cleanup_switcher_branches, bind, print.
  rewrite (get_current_branch_in _ r) by pre.
  destruct (first_existing_in
              (log (EvGit Git.BranchShowCurrent)
                   (log (EvPrint "Cleaning up switcher branches...") w)) r)
    as (w1 & Hf & Hl1); try pre.
  rewrite Hf, Hnotrunk.
  destruct (only_logs_fields _ _ Hl1) as (Hgi1 & _ & Hrp1 & Hwt1 & _).
  revert Hgi1 Hrp1 Hwt1. wsimpl. intros Hgi1 Hrp1 Hwt1.
  assert (Git.branches r !! "main" = None) as Em.
  { unfold trunk_of, has_branch in Hnotrunk.
    destruct (Git.branches r !! "main"); [discriminate | reflexivity]. }
  unfold land, bind, print, ret.
  rewrite (run_git_command_in _ r) by (wsimpl; congruence).
  cbn [Git.exec_in]. rewrite Em, Hcommit. cbn [Z.eqb Git.code Git.ok negb]. wsimpl.
  set (r2 := Git.set_head (Git.set_branches r (<["main" := c]> (Git.branches r)))
               (Git.OnBranch "main")).
  assert (forallb (has_branch r2) states = true) as Hall2.
  { rewrite <- Hall. unfold states, has_branch, r2. cbn [forallb]. gsimpl.
    rewrite !lookup_insert_ne by discriminate. reflexivity. }
  assert (forall b, In b states -> Git.on_branch r2 b = false) as Hoff.
  { intros b Hb. unfold Git.on_branch, r2. gsimpl.
    destruct Hb as [<-|[<-|[<-|[]]]]; reflexivity. }
  match goal with
  | |- context [delete_branches states ?w0] =>
      destruct (delete_managed w0 r2 ltac:(wsimpl; congruence) eq_refl Hall2 Hoff)
        as (w3 & Hd & _ & Hr3 & Hw3)
  end.
  rewrite Hd. split; [reflexivity|]. wsimpl. split; [exact Hr3|].
  rewrite Hw3. wsimpl. exact Hwt1.
Qed.

Lemma cleanup_creates_main_witness :
  trunk_of Scenario2.r_no_trunk = None
  /\ let (result, w') := cleanup_switcher_branches Scenario2.w_no_trunk in
     result = true
     /\ (Git.head <$> repo w') = Some (Git.OnBranch "main")
     /\ wt w' = Scenario.tree_v1.
Proof.
  split; [vm_compute; reflexivity|].
  pose proof (cleanup_creates_main Scenario2.w_no_trunk Scenario2.r_no_trunk Scenario.c_gpt
                eq_refl eq_refl ltac:(vm_compute; reflexivity) ltac:(vm_compute; reflexivity)
                ltac:(vm_compute; reflexivity)) as H.
  destruct (cleanup_switcher_branches Scenario2.w_no_trunk) as [result w'].
  destruct H as (H1 & H2 & H3). split; [exact H1|]. rewrite H2. split; [reflexivity | exact H3].
Defined.

(** ** The confirmation, the verification and the archive walk *)

Lemma lower_char_y (a : ascii) :
  lower_char a = "y"%char -> a = "y"%char \/ a = "Y"%char.
Proof.
  destruct a as [[] [] [] [] [] [] [] []]; vm_compute; intros H;
    first [ discriminate H | left; reflexivity | right; reflexivity ].
Qed.

Lemma lower_y (s : string) : lower s = "y" <-> s = "y" \/ s = "Y".
Proof.
  split.
  - destruct s as [|a [|b s]]; simpl; intros H; try discriminate H.
    injection H as H. destruct (lower_char_y a H) as [-> | ->]; tauto.
  - intros [-> | ->]; reflexivity.
Qed.

(** X16: the reset counts a reply as the confirmation exactly when,
    white space at both ends removed, it is the single letter [y] or [Y];
    [yes] is not a confirmation. *)
Theorem confirmation_is_single_letter (line : string) :
  affirmative line = true <-> strip line = "y" \/ strip line = "Y".
Proof.
  unfold affirmative. rewrite String.eqb_eq. apply lower_y.
Qed.



(** X18: the walk of [create_zip] writes, in the order of the walk, the
    regular files that are neither the archive itself nor the script
    [switch.py], that no exclusion pattern matches and that can be read;
    besides it only prints. *)
Theorem walk_archives_filtered (zip_name : string) (entries : list Entry) (w : World) :
  fst (archive_entries zip_name entries [] w)
  = map (fun e => path_str (e_parts e)) (List.filter (archived zip_name) entries)
  /\ only_logs w (snd (archive_entries zip_name entries [] w)).
Proof.
  split; [apply (archive_entries_members zip_name entries [] w)
         | apply archive_entries_logs].
Qed.







(** ** The ignore list *)






(** ** What the cleanup keeps *)



